(** * prompt_toolkit/styles/style.py: the style cascade

    A shallow embedding of [prompt_toolkit.styles.style]: the colour
    validator [_colorformat], the style-string interpreter
    [_parse_style_str], the [Style] class (construction from a list of
    rules and [get_attrs_for_style_str]) and [_merge_attrs].

    Strings are Python text restricted to the code points below 256, one
    [ascii] per code point.  Exceptions are values of [result]. *)

From Stdlib Require Import NArith Ascii.
From stdpp Require Import base decidable option list sorting strings gmap.

#[local] Set Warnings "-clear-no-such-hyp".

(** ** Exceptions *)

(** [ValueError] carries the text that [_colorformat] reports;
    [AssertionError] is what a failing [assert] raises. *)
Inductive exception : Type :=
  | ValueError (text : string)
  | AssertionError.

Inductive result (A : Type) : Type :=
  | Return (a : A)
  | Raise (e : exception).
Arguments Return {A} a.
Arguments Raise {A} e.

Global Instance result_ret : MRet result := λ A a, Return a.
Global Instance result_bind : MBind result := λ A B k m,
  match m with
  | Return a => k a
  | Raise e => Raise e
  end.

(** A [for] loop whose body may raise: the state is threaded from one
    iteration to the next and the first exception leaves the loop. *)
Fixpoint for_each {S X : Type} (body : S → X → result S) (xs : list X) (s : S)
    : result S :=
  match xs with
  | [] => Return s
  | x :: xs' =>
      match body s x with
      | Return s' => for_each body xs' s'
      | Raise e => Raise e
      end
  end.

(** ** The string methods the module uses *)

Module Py.

(** [str.isspace] on a single character of the range: TAB..CR, FS..US,
    SPACE, NEL and NBSP. *)
Definition isspace (c : ascii) : bool :=
  let n := N_of_ascii c in
  ((9 <=? n) && (n <=? 13) || (28 <=? n) && (n <=? 32)
   || (n =? 133) || (n =? 160))%N.

(** [str.lower] on a single character: A..Z and the upper-case letters
    of the Latin-1 block move up by 32. *)
Definition lower_char (c : ascii) : ascii :=
  let n := N_of_ascii c in
  if ((65 <=? n) && (n <=? 90)
      || (192 <=? n) && (n <=? 222) && negb (n =? 215))%N
  then ascii_of_N (n + 32) else c.

Fixpoint lower (s : string) : string :=
  match s with
  | EmptyString => EmptyString
  | String c s' => String (lower_char c) (lower s')
  end.

(** [s[n:]] *)
Fixpoint slice_from (n : nat) (s : string) : string :=
  match n, s with
  | O, _ => s
  | S _, EmptyString => EmptyString
  | S n', String _ s' => slice_from n' s'
  end.

(** [s[0:n]] *)
Fixpoint slice_to (n : nat) (s : string) : string :=
  match n, s with
  | O, _ => EmptyString
  | S _, EmptyString => EmptyString
  | S n', String c s' => String c (slice_to n' s')
  end.

(** [s.startswith(p)] *)
Fixpoint startswith (p s : string) : bool :=
  match p, s with
  | EmptyString, _ => true
  | String _ _, EmptyString => false
  | String a p', String b s' => if decide (a = b) then startswith p' s' else false
  end.

(** [s.endswith(p)] *)
Definition endswith (p s : string) : bool :=
  startswith (String.rev p) (String.rev s).

(** [p in s] for two strings: [p] occurs in [s] as a substring. *)
Fixpoint contains (p s : string) : bool :=
  startswith p s ||
  match s with
  | EmptyString => false
  | String _ s' => contains p s'
  end.

(** [s.split()] : the maximal runs of characters that are not
    whitespace.  [cur] is the run being read. *)
Definition flush (cur : string) : list string :=
  match cur with
  | EmptyString => []
  | String _ _ => [cur]
  end.

Fixpoint split_go (cur : string) (s : string) : list string :=
  match s with
  | EmptyString => flush cur
  | String c s' =>
      if isspace c then flush cur ++ split_go EmptyString s'
      else split_go (cur +:+ String c EmptyString) s'
  end.

Definition split (s : string) : list string := split_go EmptyString s.

(** [s.split(sep)] for a one-character separator: every occurrence cuts,
    empty pieces are kept, and the result is never empty. *)
Fixpoint split_on_go (sep : ascii) (cur : string) (s : string) : list string :=
  match s with
  | EmptyString => [cur]
  | String c s' =>
      if decide (c = sep) then cur :: split_on_go sep EmptyString s'
      else split_on_go sep (cur +:+ String c EmptyString) s'
  end.

Definition split_on (sep : ascii) (s : string) : list string :=
  split_on_go sep EmptyString s.

(** [sorted(l)] on strings, which Python compares code point by code
    point. *)
Definition sorted (l : list string) : list string :=
  merge_sort String.le l.

(** [itertools.combinations(l, r)]: the subsequences of [l] of length
    [r], by position. *)
Fixpoint combinations {A : Type} (l : list A) (r : nat) {struct l}
    : list (list A) :=
  match r, l with
  | O, _ => [[]]
  | S _, [] => []
  | S r', x :: l' => (cons x <$> combinations l' r') ++ combinations l' r
  end.

End Py.

(** ** base.py: [Attrs] and the constants imported from it *)

(** [Attrs] is the named tuple
    [(color, bgcolor, bold, underline, italic, blink, reverse)]; a field
    holding Python's [None] is [None] here. *)
Record Attrs : Type := mkAttrs {
  color : option string;
  bgcolor : option string;
  bold : option bool;
  underline : option bool;
  italic : option bool;
  blink : option bool;
  reverse : option bool
}.

Global Instance Attrs_eq_dec : EqDecision Attrs.
Proof. solve_decision. Defined.

(** [attrs._replace(field=v)], one per field. *)
Definition replace_color (v : string) (a : Attrs) : Attrs :=
  mkAttrs (Some v) (bgcolor a) (bold a) (underline a) (italic a) (blink a) (reverse a).
Definition replace_bgcolor (v : string) (a : Attrs) : Attrs :=
  mkAttrs (color a) (Some v) (bold a) (underline a) (italic a) (blink a) (reverse a).
Definition replace_bold (v : bool) (a : Attrs) : Attrs :=
  mkAttrs (color a) (bgcolor a) (Some v) (underline a) (italic a) (blink a) (reverse a).
Definition replace_underline (v : bool) (a : Attrs) : Attrs :=
  mkAttrs (color a) (bgcolor a) (bold a) (Some v) (italic a) (blink a) (reverse a).
Definition replace_italic (v : bool) (a : Attrs) : Attrs :=
  mkAttrs (color a) (bgcolor a) (bold a) (underline a) (Some v) (blink a) (reverse a).
Definition replace_blink (v : bool) (a : Attrs) : Attrs :=
  mkAttrs (color a) (bgcolor a) (bold a) (underline a) (italic a) (Some v) (reverse a).
Definition replace_reverse (v : bool) (a : Attrs) : Attrs :=
  mkAttrs (color a) (bgcolor a) (bold a) (underline a) (italic a) (blink a) (Some v).

(** Modelled from the spec: [DEFAULT_ATTRS] is imported from [base.py],
    which is not part of the sources at hand; the specification describes
    it as the value with all fields explicitly false or empty. *)
Definition DEFAULT_ATTRS : Attrs :=
  mkAttrs (Some "") (Some "") (Some false) (Some false) (Some false)
          (Some false) (Some false).

(** No field is [None]. *)
Definition all_set (a : Attrs) : Prop :=
  is_Some (color a) ∧ is_Some (bgcolor a) ∧ is_Some (bold a) ∧
  is_Some (underline a) ∧ is_Some (italic a) ∧ is_Some (blink a) ∧
  is_Some (reverse a).

(** The value of field [f] in the last layer of [layers] where it is not
    [None], and [d] when it is [None] in all of them. *)
Definition last_set {A B : Type} (f : A → option B) (d : B) (layers : list A) : B :=
  default d (last (omap f layers)).

(** A layer's field [new] laid over the merged field [old]. *)
Definition overwrite {B : Type} (old new : option B) : option B :=
  match new with
  | Some x => Some x
  | None => old
  end.

(** Every character of [s] is whitespace; the empty string is included. *)
Fixpoint only_whitespace (s : string) : bool :=
  match s with
  | EmptyString => true
  | String c s' => Py.isspace c && only_whitespace s'
  end.

(** The layer [top] laid over [below], field by field. *)
Definition over (below top : Attrs) : Attrs :=
  mkAttrs (overwrite (color below) (color top))
          (overwrite (bgcolor below) (bgcolor top))
          (overwrite (bold below) (bold top))
          (overwrite (underline below) (underline top))
          (overwrite (italic below) (italic top))
          (overwrite (blink below) (blink top))
          (overwrite (reverse below) (reverse top)).

(** Every character of [s] satisfies [P]. *)
Fixpoint all_chars (P : ascii → bool) (s : string) : bool :=
  match s with
  | EmptyString => true
  | String c s' => P c && all_chars P s'
  end.

(** A class name as [split] and [lower] leave it: not empty, without
    whitespace and in lower case. *)
Definition canonical_name (name : string) : Prop :=
  name ≠ "" ∧ all_chars (λ c, negb (Py.isspace c)) name = true ∧
  Py.lower name = name.

(** A palette for the closed examples: the development is parametric in
    [ANSI_COLOR_NAMES] and the examples run it on this list. *)
Definition sample_names : list string :=
  ["ansiblack"; "ansired"; "ansigreen"; "ansiblue"; "ansiwhite"].

(** ** style.py *)

Definition _EMPTY_ATTRS : Attrs :=
  mkAttrs None None None None None None None.

Section style.

(** [ANSI_COLOR_NAMES], the palette of colour names, is imported from
    [base.py]; the module only tests membership in it. *)
Context (ANSI_COLOR_NAMES : list string).

Definition _colorformat (text : string) : result string :=
  if decide (Py.slice_to 1 text = "#") then
    let col := Py.slice_from 1 text in
    if decide (col ∈ ANSI_COLOR_NAMES) then Return col
    else if decide (String.length col = 6) then Return col
    else if decide (String.length col = 3) then
      match col with
      | String c0 (String c1 (String c2 _)) =>
          Return (String c0 (String c0 (String c1 (String c1
                   (String c2 (String c2 EmptyString))))))
      | _ => Raise (ValueError text)
      end
    else Raise (ValueError text)
  else if decide (text ∈ [""; "default"]) then Return text
  else Raise (ValueError text).

(** The body of the loop of [_parse_style_str] over the parts of the
    style string: the chain of [if]/[elif] tests, in the order of the
    source.  The state is the pair of [attrs] and [class_names]. *)
Definition parse_part (st : Attrs * list string) (part : string)
    : result (Attrs * list string) :=
  let '(attrs, class_names) := st in
  if decide (part = "noinherit") then Return (attrs, class_names)
  else if decide (part = "bold") then Return (replace_bold true attrs, class_names)
  else if decide (part = "nobold") then Return (replace_bold false attrs, class_names)
  else if decide (part = "italic") then Return (replace_italic true attrs, class_names)
  else if decide (part = "noitalic") then Return (replace_italic false attrs, class_names)
  else if decide (part = "underline") then Return (replace_underline true attrs, class_names)
  else if decide (part = "nounderline") then Return (replace_underline false attrs, class_names)
  else if decide (part = "blink") then Return (replace_blink true attrs, class_names)
  else if decide (part = "noblink") then Return (replace_blink false attrs, class_names)
  else if decide (part = "reverse") then Return (replace_reverse true attrs, class_names)
  else if decide (part = "noreverse") then Return (replace_reverse false attrs, class_names)
  else if decide (part ∈ ["roman"; "sans"; "mono"]) then Return (attrs, class_names)
  else if Py.startswith "border:" part then Return (attrs, class_names)
  else if Py.startswith "class:" part then
    Return (attrs, class_names ++ Py.split_on ","%char (Py.lower (Py.slice_from 6 part)))
  else if Py.startswith "[" part && Py.endswith "]" part then
    Return (attrs, class_names)
  else if Py.startswith "bg:" part then
    v ← _colorformat (Py.slice_from 3 part);
    Return (replace_bgcolor v attrs, class_names)
  else
    v ← _colorformat part;
    Return (replace_color v attrs, class_names).

(** The [attrs] the loop starts from. *)
Definition start_attrs (style_str : string) : Attrs :=
  if Py.contains "noinherit" style_str then DEFAULT_ATTRS else _EMPTY_ATTRS.

(** [_parse_style_str(style_str, style=None)]; the argument [style] is
    not used by the function and is left out. *)
Definition _parse_style_str (style_str : string) : result (Attrs * list string) :=
  let class_names := [] in
  let attrs := start_attrs style_str in
  for_each parse_part (Py.split style_str) (attrs, class_names).

(** [_or], applied to its [values]: the first value that is not [None], starting at the
    end; Python's implicit [return None] when there is none. *)
Fixpoint first_not_None {A : Type} (values : list (option A)) : option A :=
  match values with
  | [] => None
  | v :: values' =>
      match v with
      | Some _ => v
      | None => first_not_None values'
      end
  end.

Definition _or {A : Type} (values : list (option A)) : option A :=
  first_not_None (rev values).

Definition _merge_attrs (list_of_attrs : list Attrs) : Attrs :=
  mkAttrs
    (_or (Some "" :: (color <$> list_of_attrs)))
    (_or (Some "" :: (bgcolor <$> list_of_attrs)))
    (_or (Some false :: (bold <$> list_of_attrs)))
    (_or (Some false :: (underline <$> list_of_attrs)))
    (_or (Some false :: (italic <$> list_of_attrs)))
    (_or (Some false :: (blink <$> list_of_attrs)))
    (_or (Some false :: (reverse <$> list_of_attrs))).

(** The class [Style]: its one attribute is the list of
    [(class_names, attrs)] pairs, the class names as a sorted tuple. *)
Record Style : Type := mkStyle {
  class_names_and_attrs : list (list string * Attrs)
}.

(** The body of the loop of [Style.__init__] over [style_rules]. *)
Definition init_rule (class_names_and_attrs : list (list string * Attrs))
    (rule : string * string) : result (list (list string * Attrs)) :=
  let '(class_names, style_str) := rule in
  let class_names := Py.sorted (Py.split (Py.lower class_names)) in
  '(attrs, class_names_2) ← _parse_style_str style_str;
  match class_names_2 with
  | [] => Return (class_names_and_attrs ++ [(class_names, attrs)])
  | _ :: _ => Raise AssertionError
  end.

Definition __init__ (style_rules : list (string * string)) : result Style :=
  class_names_and_attrs ← for_each init_rule style_rules [];
  Return (mkStyle class_names_and_attrs).

(** The set [combos] that [get_attrs_for_style_str] builds: it starts as
    the set holding the tuple [('',)] and receives every combination of
    every length from 1 to [len(class_names)]. *)
Definition build_combos (class_names : list string) : gset (list string) :=
  foldl (λ combos count,
           foldl (λ combos combo, combos ∪ {[ combo ]}) combos
                 (Py.combinations class_names count))
        (∅ ∪ {[ [""] ]})
        (seq 1 (length class_names)).

(** The loop over [self.class_names_and_attrs] that appends the [attr] of
    every rule whose tuple is in [combos]. *)
Definition collect_attrs (combos : gset (list string))
    (rules : list (list string * Attrs)) (list_of_attrs : list Attrs)
    : list Attrs :=
  foldl (λ list_of_attrs rule,
           let '(class_names, attr) := rule in
           if decide (class_names ∈ combos) then list_of_attrs ++ [attr]
           else list_of_attrs)
        list_of_attrs rules.

Definition get_attrs_for_style_str (self : Style) (style_str : string)
    (default : Attrs) : result Attrs :=
  '(inline_attrs, class_names) ← _parse_style_str style_str;
  let combos := build_combos class_names in
  let list_of_attrs := [default] in
  let list_of_attrs :=
    collect_attrs combos (class_names_and_attrs self) list_of_attrs in
  let list_of_attrs := list_of_attrs ++ [inline_attrs] in
  Return (_merge_attrs list_of_attrs).

(** [Style(style_rules).get_attrs_for_style_str(style_str, default)]:
    construction followed by one query. *)
Definition resolve (style_rules : list (string * string)) (style_str : string)
    (default : Attrs) : result Attrs :=
  self ← __init__ style_rules;
  get_attrs_for_style_str self style_str default.

(** The five forms of colour text: [#] and a palette name, [#] and six
    characters, [#] and three characters, the empty string, and
    [default]. *)
Definition color_form (text : string) : Prop :=
  (∃ col, text = String "#" col ∧
          (col ∈ ANSI_COLOR_NAMES ∨ String.length col = 6 ∨ String.length col = 3))
  ∨ text = "" ∨ text = "default".

(** [attrs'] differs from [attrs] only in fields that one of [parts]
    sets: a flag needs its keyword or the keyword with [no] in front, the
    background a part [bg:...] and the foreground a part that is itself
    a colour. *)
Definition set_by_parts (parts : list string) (attrs attrs' : Attrs) : Prop :=
  ("bold" ∉ parts → "nobold" ∉ parts → bold attrs' = bold attrs) ∧
  ("italic" ∉ parts → "noitalic" ∉ parts → italic attrs' = italic attrs) ∧
  ("underline" ∉ parts → "nounderline" ∉ parts →
     underline attrs' = underline attrs) ∧
  ("blink" ∉ parts → "noblink" ∉ parts → blink attrs' = blink attrs) ∧
  ("reverse" ∉ parts → "noreverse" ∉ parts → reverse attrs' = reverse attrs) ∧
  (bgcolor attrs' = bgcolor attrs ∨
   ∃ part v, part ∈ parts ∧ Py.startswith "bg:" part = true ∧
             _colorformat (Py.slice_from 3 part) = Return v ∧
             bgcolor attrs' = Some v) ∧
  (color attrs' = color attrs ∨
   ∃ part v, part ∈ parts ∧ _colorformat part = Return v ∧
             color attrs' = Some v).

(** One of [parts] is a [class:] reference. *)
Definition has_class_part (parts : list string) : Prop :=
  Exists (λ part, Py.startswith "class:" part = true) parts.

(** The strings that [_colorformat] returns: a palette name, six
    characters, the empty string or [default]. *)
Definition color_value (v : string) : Prop :=
  v ∈ ANSI_COLOR_NAMES ∨ String.length v = 6 ∨ v = "" ∨ v = "default".

(** Both colours of [attrs], where set, are such strings. *)
Definition valid_colors (attrs : Attrs) : Prop :=
  (∀ v, color attrs = Some v → color_value v) ∧
  (∀ v, bgcolor attrs = Some v → color_value v).

(** The class names that the [class:] parts among [parts] list, in the
    order of the parts. *)
Definition class_names_of (parts : list string) : list string :=
  parts ≫= λ part,
    if Py.startswith "class:" part
    then Py.split_on "," (Py.lower (Py.slice_from 6 part))
    else [].

(** [text] is what the colour part [part] hands to [_colorformat]: the
    part itself, or what follows [bg:]. *)
Definition color_text_of (part text : string) : Prop :=
  text = part ∨ (Py.startswith "bg:" part = true ∧ text = Py.slice_from 3 part).

(** ** Strings *)

Lemma app_empty_r (s : string) : s +:+ "" = s.
Proof. induction s as [|c s IH]; [done|]. change (String c (s +:+ "") = String c s). by rewrite IH. Qed.

Lemma app_String (c : ascii) (s t : string) :
  String c s +:+ t = String c (s +:+ t).
Proof. done. Qed.

Lemma app_assoc_s (s t u : string) : (s +:+ t) +:+ u = s +:+ (t +:+ u).
Proof.
  induction s as [|c s IH]; [done|]. rewrite !app_String. by rewrite IH.
Qed.

Lemma startswith_app (p post : string) : Py.startswith p (p +:+ post) = true.
Proof.
  induction p as [|c p IH]; [done|]. rewrite app_String. simpl.
  by rewrite decide_True.
Qed.

Lemma startswith_inv (p s : string) :
  Py.startswith p s = true → ∃ post, s = p +:+ post.
Proof.
  revert s. induction p as [|c p IH]; intros s Hs.
  - by exists s.
  - destruct s as [|b s]; [done|]. simpl in Hs.
    case_decide as Hcb; [|done]. subst b.
    apply IH in Hs as [post ->]. by exists post.
Qed.

Lemma contains_app (pre p post : string) :
  Py.contains p (pre +:+ p +:+ post) = true.
Proof.
  induction pre as [|c pre IH].
  - change ("" +:+ p +:+ post) with (p +:+ post).
    destruct (p +:+ post) eqn:Heq; simpl; rewrite <- Heq, startswith_app; done.
  - rewrite app_String. simpl. rewrite IH. apply orb_true_r.
Qed.

(** The parts that [split] returns are pieces of the string. *)
Lemma split_go_piece (cur s part : string) :
  part ∈ Py.split_go cur s → ∃ pre post, cur +:+ s = pre +:+ part +:+ post.
Proof.
  revert cur. induction s as [|c s IH]; intros cur; simpl.
  - destruct cur as [|a cur]; simpl; [by intros ?%elem_of_nil|].
    intros ->%list_elem_of_singleton. exists "", "".
    by rewrite !app_empty_r.
  - destruct (Py.isspace c).
    + rewrite elem_of_app. intros [Hcur | Hrest].
      * destruct cur as [|a cur]; simpl in Hcur; [by apply elem_of_nil in Hcur|].
        apply list_elem_of_singleton in Hcur as ->. by exists "", (String c s).
      * apply IH in Hrest as (pre & post & Heq).
        change ("" +:+ s) with s in Heq. subst s.
        exists (cur +:+ String c pre), post.
        by rewrite app_assoc_s, app_String.
    + intros (pre & post & Heq)%IH. exists pre, post.
      by rewrite <- Heq, app_assoc_s.
Qed.

Lemma split_elem_contains (s part : string) :
  part ∈ Py.split s → Py.contains part s = true.
Proof.
  intros (pre & post & Heq)%split_go_piece.
  change ("" +:+ s) with s in Heq. subst s. apply contains_app.
Qed.

Lemma split_on_go_nonempty (sep : ascii) (cur s : string) :
  Py.split_on_go sep cur s ≠ [].
Proof.
  revert cur. induction s as [|c s IH]; intros cur; simpl; [done|].
  case_decide; [done | apply IH].
Qed.

Lemma lower_char_isspace (c : ascii) :
  Py.isspace c = true → Py.lower_char c = c.
Proof. destruct c as [[] [] [] [] [] [] [] []]; by vm_compute. Qed.

(** A class-name string of whitespace only has no class names. *)
Lemma split_lower_only_whitespace (s : string) :
  only_whitespace s = true → Py.split (Py.lower s) = [].
Proof.
  unfold Py.split. induction s as [|c s IH]; simpl; [done|].
  intros [Hc Hs]%andb_true_iff.
  rewrite (lower_char_isspace c Hc), Hc. simpl. by apply IH.
Qed.

(** ** Lists of option values: [_or] *)

Lemma first_not_None_app {A : Type} (l1 l2 : list (option A)) :
  first_not_None (l1 ++ l2) =
  match first_not_None l1 with
  | Some v => Some v
  | None => first_not_None l2
  end.
Proof.
  induction l1 as [|[v|] l1 IH]; simpl; [done..|].
  exact IH.
Qed.

(** Appending one more value: a [None] changes nothing, anything else
    becomes the result. *)
Lemma _or_snoc {A : Type} (values : list (option A)) (v : option A) :
  _or (values ++ [v]) =
  match v with
  | Some x => Some x
  | None => _or values
  end.
Proof.
  unfold _or. rewrite rev_app_distr. simpl. by destruct v.
Qed.

(** With a first value that is not [None], [_or] is the last value that
    is not [None] among the others, and the first one when there is
    none. *)
Lemma _or_last_set {A : Type} (d : A) (values : list (option A)) :
  _or (Some d :: values) = Some (last_set id d values).
Proof.
  unfold last_set.
  induction values as [|v values IH] using rev_ind; [done|].
  rewrite app_comm_cons, _or_snoc, omap_app. simpl.
  destruct v as [x|]; simpl.
  - by rewrite last_snoc.
  - by rewrite app_nil_r.
Qed.

Lemma omap_id_fmap {A B : Type} (f : A → option B) (l : list A) :
  omap id (f <$> l) = omap f l.
Proof.
  induction l as [|a l IH]; csimpl; [done|].
  destruct (f a); csimpl; by rewrite IH.
Qed.

Lemma _or_field {A B : Type} (f : A → option B) (d : B) (l : list A) :
  _or (Some d :: (f <$> l)) = Some (last_set f d l).
Proof. rewrite _or_last_set. unfold last_set. by rewrite omap_id_fmap. Qed.

Lemma _or_field_snoc {A B : Type} (f : A → option B) (d : B) (l : list A) (a : A) :
  _or (Some d :: (f <$> l ++ [a])) =
  overwrite (_or (Some d :: (f <$> l))) (f a).
Proof.
  unfold overwrite.
  rewrite fmap_app. change (f <$> [a]) with [f a].
  by rewrite app_comm_cons, _or_snoc.
Qed.

Lemma _merge_attrs_all_set (list_of_attrs : list Attrs) :
  all_set (_merge_attrs list_of_attrs).
Proof.
  unfold all_set, _merge_attrs; simpl.
  rewrite !_or_field. repeat split; eauto.
Qed.

(** ** The set of combinations *)

Lemma elem_of_combinations {A : Type} (c l : list A) (r : nat) :
  c ∈ Py.combinations l r ↔ c `sublist_of` l ∧ length c = r.
Proof.
  revert c r. induction l as [|x l IH]; intros c r.
  - destruct r; simpl.
    + rewrite list_elem_of_singleton, sublist_nil_r. naive_solver.
    + rewrite elem_of_nil, sublist_nil_r. naive_solver.
  - destruct r as [|r]; simpl.
    + rewrite list_elem_of_singleton. split.
      * intros ->. split; [apply sublist_nil_l | done].
      * intros [_ Hlen]. by apply nil_length_inv.
    + rewrite elem_of_app, list_elem_of_fmap, sublist_cons_r. split.
      * intros [(c' & -> & Hc') | Hc].
        -- apply IH in Hc' as [? <-]. split; [right; eauto | done].
        -- apply IH in Hc as [? ?]. split; [by left | done].
      * intros [[Hc | (c' & -> & Hc')] Hlen].
        -- right. by apply IH.
        -- left. exists c'. split; [done|]. apply IH. simpl in Hlen. split; [done | lia].
Qed.

Lemma elem_of_foldl_add (combos : gset (list string)) (l : list (list string))
    (k : list string) :
  k ∈ foldl (λ combos combo, combos ∪ {[ combo ]}) combos l ↔ k ∈ combos ∨ k ∈ l.
Proof.
  revert combos. induction l as [|c l IH]; intros combos; simpl.
  - rewrite elem_of_nil. naive_solver.
  - rewrite IH, elem_of_union, elem_of_singleton, elem_of_cons. naive_solver.
Qed.

Lemma elem_of_foldl_counts (F : nat → list (list string))
    (combos : gset (list string)) (counts : list nat) (k : list string) :
  k ∈ foldl (λ combos count,
               foldl (λ combos combo, combos ∪ {[ combo ]}) combos (F count))
            combos counts
  ↔ k ∈ combos ∨ ∃ count, count ∈ counts ∧ k ∈ F count.
Proof.
  revert combos. induction counts as [|n counts IH]; intros combos; simpl.
  - split; [by left|]. intros [?|(n & Hn & _)]; [done|]. by apply elem_of_nil in Hn.
  - rewrite IH, elem_of_foldl_add. setoid_rewrite elem_of_cons. naive_solver.
Qed.

(** What [combos] holds: the tuple [('',)] and every non-empty
    subsequence of [class_names], in the order of [class_names]. *)
Lemma elem_of_build_combos (class_names k : list string) :
  k ∈ build_combos class_names ↔
  k = [""] ∨ (k ≠ [] ∧ k `sublist_of` class_names).
Proof.
  unfold build_combos. rewrite elem_of_foldl_counts.
  rewrite elem_of_union, elem_of_singleton.
  setoid_rewrite elem_of_seq. setoid_rewrite elem_of_combinations.
  split.
  - intros [[Hk | Hk] | (n & Hn & Hsub & Hlen)].
    + by apply not_elem_of_empty in Hk.
    + by left.
    + right. split; [|done]. intros ->. simpl in Hlen. lia.
  - intros [Hk | [Hne Hsub]]; [left; by right|].
    right. exists (length k). split; [|done].
    apply sublist_length in Hsub. destruct k; [done|]. simpl in *. lia.
Qed.

Lemma empty_tuple_not_in_combos (class_names : list string) :
  [] ∉ build_combos class_names.
Proof.
  rewrite elem_of_build_combos. intros [Hk | [Hk _]]; [discriminate | done].
Qed.

(** The loop over the rules keeps, in their order, the [attr] of the
    rules whose tuple is in [combos]. *)
Lemma collect_attrs_filter (combos : gset (list string))
    (rules : list (list string * Attrs)) (list_of_attrs : list Attrs) :
  collect_attrs combos rules list_of_attrs =
  list_of_attrs ++ (snd <$> filter (λ rule, rule.1 ∈ combos) rules).
Proof.
  unfold collect_attrs. revert list_of_attrs.
  induction rules as [|[k attr] rules IH]; intros acc; simpl.
  - by rewrite app_nil_r.
  - rewrite IH, filter_cons. simpl. case_decide; simpl.
    + by rewrite <- app_assoc.
    + done.
Qed.

(** ** The loop of [Style.__init__] *)

Lemma for_each_init_rule (style_rules : list (string * string))
    (acc res : list (list string * Attrs)) :
  for_each init_rule style_rules acc = Return res →
  ∃ entries, res = acc ++ entries ∧
    Forall2 (λ rule entry,
               entry.1 = Py.sorted (Py.split (Py.lower rule.1)) ∧
               _parse_style_str rule.2 = Return (entry.2, []))
            style_rules entries.
Proof.
  revert acc. induction style_rules as [|[cn str] rules IH]; intros acc; simpl.
  - intros [= <-]. exists []. by rewrite app_nil_r.
  - destruct (_parse_style_str str) as [[attrs [|c cs]]|e] eqn:Hp; simpl; [|done..].
    intros (entries & -> & Hall)%IH.
    eexists (_ :: entries). rewrite <- app_assoc. split; [done|].
    constructor; [|done]. simpl. by split.
Qed.

Lemma get_attrs_for_style_str_eq (self : Style) (style_str : string)
    (default inline_attrs : Attrs) (class_names : list string) :
  _parse_style_str style_str = Return (inline_attrs, class_names) →
  get_attrs_for_style_str self style_str default =
  Return (_merge_attrs
            ([default] ++
             (snd <$> filter (λ rule, rule.1 ∈ build_combos class_names)
                             (class_names_and_attrs self)) ++
             [inline_attrs])).
Proof.
  intros Hp. unfold get_attrs_for_style_str. rewrite Hp. simpl.
  by rewrite collect_attrs_filter.
Qed.

Lemma filter_combos_nonempty (combos : gset (list string))
    (rules : list (list string * Attrs)) :
  [] ∉ combos →
  filter (λ rule, rule.1 ∈ combos) (filter (λ rule, rule.1 ≠ []) rules) =
  filter (λ rule, rule.1 ∈ combos) rules.
Proof.
  intros Hnil. induction rules as [|[k attr] rules IH]; [done|].
  rewrite (filter_cons (λ rule, rule.1 ≠ [])). simpl.
  destruct (decide (k ≠ [])) as [Hk | Hk].
  - rewrite !filter_cons. simpl. by rewrite IH.
  - apply dec_stable in Hk as ->. rewrite filter_cons. simpl.
    by rewrite decide_False.
Qed.

(** ** The claims about the merge *)

(** C3: for every list of layers and each of the seven fields, the merged
    value is the value of the last layer in which the field is not unset,
    and [False] or the empty string when it is unset in all of them.  So
    a further layer with the field unset leaves the merged field as it
    was, and a layer with the field set, also to [False] or to the empty
    string, replaces it; merging unset, true, unset for [bold] gives
    true. *)
Theorem C3_merge_takes_last_set_value (list_of_attrs : list Attrs) :
  let merged := _merge_attrs list_of_attrs in
  (color merged = Some (last_set color "" list_of_attrs) ∧
   bgcolor merged = Some (last_set bgcolor "" list_of_attrs) ∧
   bold merged = Some (last_set bold false list_of_attrs) ∧
   underline merged = Some (last_set underline false list_of_attrs) ∧
   italic merged = Some (last_set italic false list_of_attrs) ∧
   blink merged = Some (last_set blink false list_of_attrs) ∧
   reverse merged = Some (last_set reverse false list_of_attrs)) ∧
  (∀ layer : Attrs,
     let merged' := _merge_attrs (list_of_attrs ++ [layer]) in
     color merged' = overwrite (color merged) (color layer) ∧
     bgcolor merged' = overwrite (bgcolor merged) (bgcolor layer) ∧
     bold merged' = overwrite (bold merged) (bold layer) ∧
     underline merged' = overwrite (underline merged) (underline layer) ∧
     italic merged' = overwrite (italic merged) (italic layer) ∧
     blink merged' = overwrite (blink merged) (blink layer) ∧
     reverse merged' = overwrite (reverse merged) (reverse layer)) ∧
  bold (_merge_attrs [_EMPTY_ATTRS; replace_bold true _EMPTY_ATTRS; _EMPTY_ATTRS])
    = Some true ∧
  bold (_merge_attrs [replace_bold true _EMPTY_ATTRS; _EMPTY_ATTRS]) = Some true ∧
  bold (_merge_attrs [replace_bold true _EMPTY_ATTRS; replace_bold false _EMPTY_ATTRS])
    = Some false ∧
  color (_merge_attrs [replace_color "ff0000" _EMPTY_ATTRS; replace_color "" _EMPTY_ATTRS])
    = Some "".
Proof.
  simpl. split; [|split].
  - unfold _merge_attrs; simpl. by rewrite !_or_field.
  - intros layer. unfold _merge_attrs; simpl. by rewrite !_or_field_snoc.
  - by vm_compute.
Qed.

(** C4: whatever the stylesheet, the inline style string and the default,
    the record that [get_attrs_for_style_str] returns has none of its
    seven fields unset; and it does return one unless parsing the inline
    style string raises, in which case that exception is what the call
    raises. *)
Theorem C4_resolved_attrs_have_no_unset_field (self : Style)
    (style_str : string) (default : Attrs) :
  match get_attrs_for_style_str self style_str default with
  | Return attrs => all_set attrs
  | Raise e => _parse_style_str style_str = Raise e
  end.
Proof.
  unfold get_attrs_for_style_str.
  destruct (_parse_style_str style_str) as [[inline_attrs class_names]|e]; simpl.
  - apply _merge_attrs_all_set.
  - done.
Qed.

(** C7: with a default whose seven fields are all set, the style built
    from the empty list of rules resolves the empty style string to that
    default, unchanged. *)
Theorem C7_empty_style_string_keeps_default (default : Attrs) :
  all_set default →
  __init__ [] = Return (mkStyle []) ∧
  get_attrs_for_style_str (mkStyle []) "" default = Return default ∧
  resolve [] "" default = Return default.
Proof.
  intros (Hc & Hbg & Hb & Hu & Hi & Hbl & Hr).
  destruct default as [c bg b u i bl r]; simpl in *.
  destruct Hc as [? ->], Hbg as [? ->], Hb as [? ->], Hu as [? ->],
    Hi as [? ->], Hbl as [? ->], Hr as [? ->].
  by vm_compute.
Qed.

(** ** The claims about matching rules *)

(** C1: the rule tuples that match a query are the tuple [('',)] and the
    non-empty subsequences of the query's class names, taken in the order
    in which the query lists them; the combinations are not sorted.  The
    rule [a b], stored as the sorted tuple [(a, b)], matches the query
    [class:a,b,c] and does not match [class:a], but it also fails to
    match [class:c,b,a] and [class:b,a], whose class sets contain both
    names. *)
Theorem C1_matching_depends_on_query_order :
  (∀ class_names k : list string,
     k ∈ build_combos class_names ↔
     k = [""] ∨ (k ≠ [] ∧ k `sublist_of` class_names)) ∧
  __init__ [("a b", "bold")] =
    Return (mkStyle [(["a"; "b"], replace_bold true _EMPTY_ATTRS)]) ∧
  resolve [("a b", "bold")] "class:a,b,c" DEFAULT_ATTRS =
    Return (replace_bold true DEFAULT_ATTRS) ∧
  resolve [("a b", "bold")] "class:a" DEFAULT_ATTRS = Return DEFAULT_ATTRS ∧
  resolve [("a b", "bold")] "class:c,b,a" DEFAULT_ATTRS = Return DEFAULT_ATTRS ∧
  resolve [("a b", "bold")] "class:b,a" DEFAULT_ATTRS = Return DEFAULT_ATTRS.
Proof.
  split; [exact elem_of_build_combos|]. by vm_compute.
Qed.

(** C2: a rule registered with an empty or all-whitespace class-name
    string is stored with the empty tuple, and the empty tuple is in the
    set of combinations of no query: such rules never take part in the
    merge, and a stylesheet resolves every query as it does without them.
    With the single rule [('', 'bold')] the empty style string resolves
    to [bold = False]. *)
Theorem C2_empty_combination_matches_no_query :
  (∀ class_names : string,
     only_whitespace class_names = true →
     Py.sorted (Py.split (Py.lower class_names)) = []) ∧
  (∀ class_names : list string, [] ∉ build_combos class_names) ∧
  (∀ (rules : list (list string * Attrs)) (style_str : string) (default : Attrs),
     get_attrs_for_style_str (mkStyle rules) style_str default =
     get_attrs_for_style_str
       (mkStyle (filter (λ rule, rule.1 ≠ []) rules)) style_str default) ∧
  __init__ [("", "bold")] =
    Return (mkStyle [([], replace_bold true _EMPTY_ATTRS)]) ∧
  resolve [("", "bold")] "" DEFAULT_ATTRS = Return DEFAULT_ATTRS ∧
  resolve [("", "bold")] "class:a" DEFAULT_ATTRS = Return DEFAULT_ATTRS.
Proof.
  split; [by intros class_names ->%split_lower_only_whitespace|].
  split; [exact empty_tuple_not_in_combos|].
  split; [|by vm_compute].
  intros rules style_str default.
  destruct (_parse_style_str style_str) as [[inline_attrs class_names]|e] eqn:Hp.
  - rewrite !(get_attrs_for_style_str_eq _ _ _ _ _ Hp). simpl.
    by rewrite filter_combos_nonempty by apply empty_tuple_not_in_combos.
  - unfold get_attrs_for_style_str. by rewrite Hp.
Qed.

(** C5: construction stores one entry per rule, in the order of the
    rules: the sorted tuple of the rule's class names and the attributes
    parsed from its style string.  A query merges, after the default and
    before the inline attributes, the attributes of all the stored
    entries whose tuple is in the combinations, in that same order, so
    entries with the same tuple are all applied and the later one wins.
    The rules [a: bold], [a: nobold] resolve [class:a] to
    [bold = False]. *)
Theorem C5_rule_order_is_preserved :
  (∀ (style_rules : list (string * string)) (self : Style),
     __init__ style_rules = Return self →
     Forall2 (λ rule entry,
                entry.1 = Py.sorted (Py.split (Py.lower rule.1)) ∧
                _parse_style_str rule.2 = Return (entry.2, []))
             style_rules (class_names_and_attrs self) ∧
     ∀ (style_str : string) (default inline_attrs : Attrs)
       (class_names : list string),
       _parse_style_str style_str = Return (inline_attrs, class_names) →
       get_attrs_for_style_str self style_str default =
       Return (_merge_attrs
                 ([default] ++
                  (snd <$> filter (λ entry, entry.1 ∈ build_combos class_names)
                                  (class_names_and_attrs self)) ++
                  [inline_attrs]))) ∧
  __init__ [("a", "bold"); ("a", "nobold")] =
    Return (mkStyle [(["a"], replace_bold true _EMPTY_ATTRS);
                     (["a"], replace_bold false _EMPTY_ATTRS)]) ∧
  (∀ default : Attrs,
     ∃ attrs, resolve [("a", "bold"); ("a", "nobold")] "class:a" default
                = Return attrs ∧
              bold attrs = Some false) ∧
  (∀ default : Attrs,
     ∃ attrs, resolve [("a", "nobold"); ("a", "bold")] "class:a" default
                = Return attrs ∧
              bold attrs = Some true).
Proof.
  split; [|split; [by vm_compute|split]].
  - intros style_rules self Hinit. unfold __init__ in Hinit.
    destruct (for_each init_rule style_rules []) as [entries|e] eqn:Hloop;
      [|done].
    injection Hinit as <-. simpl.
    apply for_each_init_rule in Hloop as (entries' & -> & Hall).
    split; [done|].
    intros style_str default inline_attrs class_names Hp.
    by apply get_attrs_for_style_str_eq.
  - intros default. eexists. split; [by vm_compute|]. by vm_compute.
  - intros default. eexists. split; [by vm_compute|]. by vm_compute.
Qed.

(** ** The claims about [_colorformat] *)

Lemma slice_to_1_hash (text : string) :
  Py.slice_to 1 text = "#" ↔ ∃ col, text = String "#" col.
Proof.
  destruct text as [|c text]; simpl.
  - split; [done | by intros [? ?]].
  - split.
    + intros [= ->]. by exists text.
    + by intros [col [= -> ->]].
Qed.

Lemma _colorformat_hash (col : string) :
  _colorformat (String "#" col) =
  if decide (col ∈ ANSI_COLOR_NAMES) then Return col
  else if decide (String.length col = 6) then Return col
  else if decide (String.length col = 3) then
    match col with
    | String c0 (String c1 (String c2 _)) =>
        Return (String c0 (String c0 (String c1 (String c1
                 (String c2 (String c2 ""))))))
    | _ => Raise (ValueError (String "#" col))
    end
  else Raise (ValueError (String "#" col)).
Proof. done. Qed.

Lemma _colorformat_no_hash (text : string) :
  (∀ col, text ≠ String "#" col) →
  _colorformat text =
  if decide (text ∈ [""; "default"]) then Return text
  else Raise (ValueError text).
Proof.
  intros Hno. unfold _colorformat.
  rewrite decide_False; [done|].
  rewrite slice_to_1_hash. intros [col ->]. by eapply Hno.
Qed.

Lemma _colorformat_accepts (text : string) :
  color_form text → ∃ v, _colorformat text = Return v.
Proof.
  intros [(col & -> & Hcol) | Htext].
  - rewrite _colorformat_hash.
    case_decide; [by eexists|]. case_decide; [by eexists|].
    destruct Hcol as [? | [? | Hlen]]; [done..|].
    rewrite decide_True by done.
    destruct col as [|c0 [|c1 [|c2 [|c3 col]]]]; simpl in Hlen; try done.
    by eexists.
  - rewrite _colorformat_no_hash by (intros col ->; by destruct Htext).
    rewrite decide_True; [by eexists|].
    rewrite !elem_of_cons. tauto.
Qed.

Lemma _colorformat_rejects (text : string) :
  ¬ color_form text → _colorformat text = Raise (ValueError text).
Proof.
  intros Hno. unfold color_form in Hno.
  destruct (decide (Py.slice_to 1 text = "#")) as [Hhash | Hhash].
  - apply slice_to_1_hash in Hhash as [col ->].
    rewrite _colorformat_hash.
    case_decide; [destruct Hno; left; eauto|].
    case_decide; [destruct Hno; left; eauto|].
    case_decide; [destruct Hno; left; eauto|]. done.
  - rewrite _colorformat_no_hash.
    + rewrite decide_False; [done|].
      rewrite !elem_of_cons, elem_of_nil. tauto.
    + intros col ->. by apply Hhash.
Qed.

(** C9: [_colorformat] returns a string on every text of one of the five
    forms and raises [ValueError] on every other text.  When [12] and
    [f80] are not names of the palette, ["#12"] is rejected and ["#f80"]
    gives ["ff8800"]; three characters that are not a palette name are
    each doubled in place. *)
Theorem C9_colorformat_accepts_exactly_the_forms :
  (∀ text, color_form text → ∃ v, _colorformat text = Return v) ∧
  (∀ text, ¬ color_form text → _colorformat text = Raise (ValueError text)) ∧
  ("12" ∉ ANSI_COLOR_NAMES → _colorformat "#12" = Raise (ValueError "#12")) ∧
  ("f80" ∉ ANSI_COLOR_NAMES → _colorformat "#f80" = Return "ff8800") ∧
  (∀ c0 c1 c2 : ascii,
     String c0 (String c1 (String c2 "")) ∉ ANSI_COLOR_NAMES →
     _colorformat (String "#" (String c0 (String c1 (String c2 "")))) =
     Return (String c0 (String c0 (String c1 (String c1
               (String c2 (String c2 ""))))))).
Proof.
  split; [exact _colorformat_accepts|].
  split; [exact _colorformat_rejects|].
  assert (∀ c0 c1 c2 : ascii,
     String c0 (String c1 (String c2 "")) ∉ ANSI_COLOR_NAMES →
     _colorformat (String "#" (String c0 (String c1 (String c2 "")))) =
     Return (String c0 (String c0 (String c1 (String c1
               (String c2 (String c2 ""))))))) as Hthree.
  { intros c0 c1 c2 Hname. rewrite _colorformat_hash.
    by rewrite decide_False by done. }
  split; [|split; [|done]].
  - intros Hname. change "#12" with (String "#" "12").
    rewrite _colorformat_hash. by rewrite decide_False by done.
  - intros Hname. by apply (Hthree "f" "8" "0")%char.
Qed.

(** C10: when the text after [#] has six characters, [_colorformat]
    returns it as it is, whatever the characters are. *)
Theorem C10_six_characters_are_returned_unchecked (col : string) :
  String.length col = 6 → _colorformat (String "#" col) = Return col.
Proof.
  intros Hlen. rewrite _colorformat_hash.
  case_decide; [done|]. by rewrite decide_True.
Qed.

(** ** The loop of [_parse_style_str] *)

Local Arguments Py.startswith : simpl never.
Local Arguments Py.endswith : simpl never.
Local Arguments Py.slice_from : simpl never.

(** Splits a hypothesis [parse_part (attrs, cn) part = Return _] along
    the chain of tests. *)
Ltac split_parse_part H :=
  unfold parse_part in H;
  repeat (case_decide; [simplify_eq |]);
  unfold mbind, result_bind in H;
  repeat case_match; simplify_eq.

Lemma parse_part_no_class (attrs attrs' : Attrs) (cn cn' : list string)
    (part : string) :
  Py.startswith "class:" part = false →
  parse_part (attrs, cn) part = Return (attrs', cn') → cn' = cn.
Proof. intros Hc H. split_parse_part H; done. Qed.

Lemma parse_part_class (attrs : Attrs) (cn : list string) (part : string) :
  Py.startswith "class:" part = true →
  parse_part (attrs, cn) part =
  Return (attrs, cn ++ Py.split_on "," (Py.lower (Py.slice_from 6 part))).
Proof. intros [post ->]%startswith_inv. by vm_compute. Qed.

Lemma parse_part_attrs (attrs attrs' : Attrs) (cn cn' : list string)
    (part : string) :
  parse_part (attrs, cn) part = Return (attrs', cn') →
  set_by_parts [part] attrs attrs' ∧ (all_set attrs → all_set attrs').
Proof.
  intros H. split_parse_part H.
  all: split;
    [unfold set_by_parts; simpl
    |unfold all_set; simpl; intros (?&?&?&?&?&?&?); repeat split; eauto].
  all: repeat split; try (intros; done); try (by left).
  all: try (intros Hn; by destruct Hn; left).
  all: try (intros _ Hn; by destruct Hn; left).
  all: right; eexists _, _; rewrite list_elem_of_singleton; eauto.
Qed.

Lemma set_by_parts_nil (attrs : Attrs) : set_by_parts [] attrs attrs.
Proof. unfold set_by_parts. repeat split; auto. Qed.

Lemma set_by_parts_cons (part : string) (parts : list string)
    (attrs attrs1 attrs2 : Attrs) :
  set_by_parts [part] attrs attrs1 →
  set_by_parts parts attrs1 attrs2 →
  set_by_parts (part :: parts) attrs attrs2.
Proof.
  intros (Hb & Hi & Hu & Hbl & Hr & Hbg & Hc)
         (Hb' & Hi' & Hu' & Hbl' & Hr' & Hbg' & Hc').
  unfold set_by_parts. repeat split.
  1-5: intros [Hne1 Hn1]%not_elem_of_cons [Hne2 Hn2]%not_elem_of_cons.
  - rewrite Hb' by done. apply Hb; by rewrite list_elem_of_singleton.
  - rewrite Hi' by done. apply Hi; by rewrite list_elem_of_singleton.
  - rewrite Hu' by done. apply Hu; by rewrite list_elem_of_singleton.
  - rewrite Hbl' by done. apply Hbl; by rewrite list_elem_of_singleton.
  - rewrite Hr' by done. apply Hr; by rewrite list_elem_of_singleton.
  - destruct Hbg' as [-> | (p & v & Hp & ?)].
    + destruct Hbg as [-> | (p & v & Hp & ?)]; [by left|].
      apply list_elem_of_singleton in Hp as ->.
      right. exists part, v. split; [by left | done].
    + right. exists p, v. split; [by right | done].
  - destruct Hc' as [-> | (p & v & Hp & ?)].
    + destruct Hc as [-> | (p & v & Hp & ?)]; [by left|].
      apply list_elem_of_singleton in Hp as ->.
      right. exists part, v. split; [by left | done].
    + right. exists p, v. split; [by right | done].
Qed.

Lemma for_each_parse_part_attrs (parts : list string) (attrs attrs' : Attrs)
    (cn cn' : list string) :
  for_each parse_part parts (attrs, cn) = Return (attrs', cn') →
  set_by_parts parts attrs attrs' ∧ (all_set attrs → all_set attrs').
Proof.
  revert attrs cn. induction parts as [|part parts IH]; intros attrs cn.
  - intros [= <- <-]. split; [apply set_by_parts_nil | done].
  - cbn [for_each].
    destruct (parse_part (attrs, cn) part) as [[attrs1 cn1]|e] eqn:Hpart;
      [|done].
    intros [Hset Hall]%IH. apply parse_part_attrs in Hpart as [Hset1 Hall1].
    split; [by eapply set_by_parts_cons | auto].
Qed.

Lemma for_each_parse_part_class_names (parts : list string)
    (attrs attrs' : Attrs) (cn cn' : list string) :
  for_each parse_part parts (attrs, cn) = Return (attrs', cn') →
  cn' ≠ [] ↔ cn ≠ [] ∨ has_class_part parts.
Proof.
  unfold has_class_part.
  revert attrs cn. induction parts as [|part parts IH]; intros attrs cn.
  - intros [= <- <-]. rewrite Exists_nil. tauto.
  - cbn [for_each].
    destruct (parse_part (attrs, cn) part) as [[attrs1 cn1]|e] eqn:Hpart;
      [|done].
    intros ->%IH. rewrite Exists_cons.
    destruct (Py.startswith "class:" part) eqn:Hclass.
    + rewrite parse_part_class in Hpart by done. injection Hpart as <- <-.
      split; [auto|]. intros _. left. intros [_ Hnil]%app_eq_nil.
      by apply split_on_go_nonempty in Hnil.
    + apply parse_part_no_class in Hpart as ->; [|done].
      split; [tauto|]. intros [? | [? | ?]]; [tauto | done | tauto].
Qed.

Lemma _parse_style_str_class_names (style_str : string) (attrs : Attrs)
    (cn : list string) :
  _parse_style_str style_str = Return (attrs, cn) →
  cn ≠ [] ↔ has_class_part (Py.split style_str).
Proof.
  intros ->%for_each_parse_part_class_names. tauto.
Qed.

(** ** The loop of [Style.__init__], failing *)

Lemma for_each_app {S X : Type} (body : S → X → result S) (xs ys : list X)
    (s : S) :
  for_each body (xs ++ ys) s =
  match for_each body xs s with
  | Return s' => for_each body ys s'
  | Raise e => Raise e
  end.
Proof.
  revert s. induction xs as [|x xs IH]; intros s; simpl; [done|].
  by destruct (body s x).
Qed.



(** ** The claims about the style-string interpreter *)

(** C6: the parse starts from [DEFAULT_ATTRS], all fields
    explicitly false or empty, exactly when [noinherit] occurs somewhere
    in the style string as a substring, which it does whenever it is one
    of the whitespace-separated parts; otherwise it starts from
    [_EMPTY_ATTRS].  In the result a field differs from the start only
    when a part of the string sets it, so without [noinherit] in the
    string the fields that no part sets are unset, and with it no field
    is unset. *)
Theorem C6_noinherit_anywhere_in_the_string (style_str : string) :
  ("noinherit" ∈ Py.split style_str →
     Py.contains "noinherit" style_str = true) ∧
  (Py.contains "noinherit" style_str = true →
     start_attrs style_str = DEFAULT_ATTRS) ∧
  (Py.contains "noinherit" style_str = false →
     start_attrs style_str = _EMPTY_ATTRS) ∧
  (∀ (attrs : Attrs) (class_names : list string),
     _parse_style_str style_str = Return (attrs, class_names) →
     set_by_parts (Py.split style_str) (start_attrs style_str) attrs ∧
     (Py.contains "noinherit" style_str = true → all_set attrs)).
Proof.
  split; [apply split_elem_contains|].
  split; [by unfold start_attrs; intros ->|].
  split; [by unfold start_attrs; intros ->|].
  intros attrs class_names [Hset Hall]%for_each_parse_part_attrs.
  split; [done|]. intros Hin. apply Hall.
  unfold start_attrs. rewrite Hin.
  unfold all_set, DEFAULT_ATTRS; simpl. repeat split; eauto.
Qed.

Lemma _colorformat_raise (text : string) (e : exception) :
  _colorformat text = Raise e → e = ValueError text ∧ ¬ color_form text.
Proof.
  intros Hraise.
  assert (¬ color_form text) as Hno.
  { intros Hform. apply _colorformat_accepts in Hform as [v Hv]. congruence. }
  split; [|done]. rewrite _colorformat_rejects in Hraise by done. congruence.
Qed.

Lemma parse_part_raise (st : Attrs * list string) (part : string)
    (e : exception) :
  parse_part st part = Raise e →
  ∃ text, e = ValueError text ∧ ¬ color_form text ∧ color_text_of part text.
Proof.
  destruct st as [attrs cn]. intros H. split_parse_part H.
  - match goal with Hc : _colorformat _ = Raise _ |- _ =>
      apply _colorformat_raise in Hc as [-> Hno] end.
    eexists. split; [done|]. split; [done|]. by right.
  - match goal with Hc : _colorformat _ = Raise _ |- _ =>
      apply _colorformat_raise in Hc as [-> Hno] end.
    eexists. split; [done|]. split; [done|]. by left.
Qed.

Lemma for_each_parse_part_raise (parts : list string)
    (st : Attrs * list string) (e : exception) :
  for_each parse_part parts st = Raise e →
  ∃ part text, part ∈ parts ∧ e = ValueError text ∧ ¬ color_form text ∧
               color_text_of part text.
Proof.
  revert st. induction parts as [|part parts IH]; intros st; [done|].
  cbn [for_each]. destruct (parse_part st part) as [st'|e'] eqn:Hpart.
  - intros (p & text & Hin & ?)%IH. exists p, text. split; [by right | done].
  - intros [= ->]. apply parse_part_raise in Hpart as (text & ?).
    exists part, text. split; [by left | done].
Qed.


(** ** More on [_merge_attrs] *)

Lemma _merge_attrs_snoc (list_of_attrs : list Attrs) (layer : Attrs) :
  _merge_attrs (list_of_attrs ++ [layer]) = over (_merge_attrs list_of_attrs) layer.
Proof. unfold _merge_attrs, over; simpl. by rewrite !_or_field_snoc. Qed.

Lemma over_all_set (below top : Attrs) : all_set top → over below top = top.
Proof.
  destruct top as [c bg b u i bl r].
  intros ([? ?] & [? ?] & [? ?] & [? ?] & [? ?] & [? ?] & [? ?]);
    simplify_eq/=. done.
Qed.

Lemma over_EMPTY (below : Attrs) : over below _EMPTY_ATTRS = below.
Proof. by destruct below. Qed.

Lemma _merge_attrs_single (attrs : Attrs) :
  all_set attrs → _merge_attrs [attrs] = attrs.
Proof.
  intros Hset. change [attrs] with ([] ++ [attrs]).
  rewrite _merge_attrs_snoc. by apply over_all_set.
Qed.

Lemma _merge_attrs_app (l1 l2 : list Attrs) :
  _merge_attrs (l1 ++ l2) = _merge_attrs (_merge_attrs l1 :: l2).
Proof.
  induction l2 as [|layer l2 IH] using rev_ind.
  - rewrite app_nil_r, _merge_attrs_single; [done|].
    apply _merge_attrs_all_set.
  - by rewrite app_assoc, app_comm_cons, !_merge_attrs_snoc, IH.
Qed.

(** X1: merging can be done in stages: the merge of a list is the merge
    of the merge of a front part followed by the rest, and merging a
    merged value alone gives it back. *)
Theorem merge_in_stages (l1 l2 : list Attrs) :
  _merge_attrs (l1 ++ l2) = _merge_attrs (_merge_attrs l1 :: l2) ∧
  _merge_attrs [_merge_attrs l1] = _merge_attrs l1.
Proof.
  split; [apply _merge_attrs_app|].
  apply _merge_attrs_single, _merge_attrs_all_set.
Qed.

(** X2: a layer with all seven fields set hides every layer before it. *)
Theorem merge_fully_set_layer_hides_earlier (l1 l2 : list Attrs) (layer : Attrs) :
  all_set layer →
  _merge_attrs (l1 ++ layer :: l2) = _merge_attrs (layer :: l2).
Proof.
  intros Hset. rewrite (cons_middle layer l1 l2), app_assoc, _merge_attrs_app.
  by rewrite _merge_attrs_snoc, over_all_set.
Qed.

(** X3: a layer with no field set, [_EMPTY_ATTRS], can be dropped from
    any position of the list. *)
Theorem merge_ignores_empty_layers (l1 l2 : list Attrs) :
  _merge_attrs (l1 ++ _EMPTY_ATTRS :: l2) = _merge_attrs (l1 ++ l2).
Proof.
  rewrite (cons_middle _EMPTY_ATTRS l1 l2), app_assoc, _merge_attrs_app.
  by rewrite _merge_attrs_snoc, over_EMPTY, <- _merge_attrs_app.
Qed.

(** ** More on [get_attrs_for_style_str] *)

Lemma get_attrs_for_style_str_over (self : Style) (style_str : string)
    (default inline_attrs : Attrs) (class_names : list string) :
  _parse_style_str style_str = Return (inline_attrs, class_names) →
  get_attrs_for_style_str self style_str default =
  Return (over (_merge_attrs
                  (default ::
                   (snd <$> filter (λ rule, rule.1 ∈ build_combos class_names)
                                   (class_names_and_attrs self))))
               inline_attrs).
Proof.
  intros Hp. rewrite (get_attrs_for_style_str_eq _ _ _ _ _ Hp).
  by rewrite app_assoc, _merge_attrs_snoc.
Qed.

(** X4: the inline style is laid over everything else: every field that
    the inline style string sets has that value in the result, whatever
    the rules and the default say. *)
Theorem inline_style_wins (self : Style) (style_str : string)
    (default inline_attrs attrs : Attrs) (class_names : list string) :
  _parse_style_str style_str = Return (inline_attrs, class_names) →
  get_attrs_for_style_str self style_str default = Return attrs →
  (∀ v, color inline_attrs = Some v → color attrs = Some v) ∧
  (∀ v, bgcolor inline_attrs = Some v → bgcolor attrs = Some v) ∧
  (∀ v, bold inline_attrs = Some v → bold attrs = Some v) ∧
  (∀ v, underline inline_attrs = Some v → underline attrs = Some v) ∧
  (∀ v, italic inline_attrs = Some v → italic attrs = Some v) ∧
  (∀ v, blink inline_attrs = Some v → blink attrs = Some v) ∧
  (∀ v, reverse inline_attrs = Some v → reverse attrs = Some v).
Proof.
  intros Hp. rewrite (get_attrs_for_style_str_over _ _ _ _ _ Hp).
  intros [= <-]. unfold over; simpl.
  repeat split; by intros v ->.
Qed.

(** X5: an inline style string in which [noinherit] occurs decides the
    result alone: the call returns the attributes parsed from it, and
    neither the rules nor the default matter. *)
Theorem noinherit_inline_style_decides_alone (self : Style)
    (style_str : string) (default inline_attrs : Attrs)
    (class_names : list string) :
  Py.contains "noinherit" style_str = true →
  _parse_style_str style_str = Return (inline_attrs, class_names) →
  get_attrs_for_style_str self style_str default = Return inline_attrs.
Proof.
  intros Hin Hp. rewrite (get_attrs_for_style_str_over _ _ _ _ _ Hp).
  f_equal. apply over_all_set.
  apply for_each_parse_part_attrs in Hp as [_ Hall]. apply Hall.
  unfold start_attrs. rewrite Hin.
  unfold all_set, DEFAULT_ATTRS; simpl. repeat split; eauto.
Qed.

(** ** The parts of [split] and the stored tuples *)

Lemma all_chars_app (P : ascii → bool) (s t : string) :
  all_chars P (s +:+ t) = all_chars P s && all_chars P t.
Proof.
  induction s as [|c s IH]; [done|]. rewrite app_String. simpl.
  by rewrite IH, andb_assoc.
Qed.

Lemma split_go_all_chars (P : ascii → bool) (cur s part : string) :
  all_chars P cur = true →
  all_chars (λ c, Py.isspace c || P c) s = true →
  part ∈ Py.split_go cur s → all_chars P part = true.
Proof.
  revert cur. induction s as [|c s IH]; intros cur Hcur Hs; simpl.
  - destruct cur; simpl; [by intros ?%elem_of_nil|].
    by intros ->%list_elem_of_singleton.
  - simpl in Hs. apply andb_true_iff in Hs as [Hc Hs].
    destruct (Py.isspace c) eqn:Hspace.
    + rewrite elem_of_app. intros [Hin | Hin]; [|by apply (IH "")].
      destruct cur; simpl in Hin; [by apply elem_of_nil in Hin|].
      by apply list_elem_of_singleton in Hin as ->.
    + apply IH; [|done]. rewrite all_chars_app, Hcur. simpl in *.
      by rewrite Hc.
Qed.

Lemma split_go_not_empty (cur s : string) : "" ∉ Py.split_go cur s.
Proof.
  revert cur. induction s as [|c s IH]; intros cur; simpl.
  - destruct cur; simpl; [apply not_elem_of_nil|].
    by intros ?%list_elem_of_singleton.
  - destruct (Py.isspace c); [|apply IH].
    rewrite elem_of_app. intros [Hin | Hin]; [|by apply (IH "")].
    destruct cur; simpl in Hin; [by apply elem_of_nil in Hin|].
    by apply list_elem_of_singleton in Hin.
Qed.

Lemma lower_char_idemp (c : ascii) :
  Py.lower_char (Py.lower_char c) = Py.lower_char c.
Proof. destruct c as [[] [] [] [] [] [] [] []]; by vm_compute. Qed.

Lemma lower_idemp (s : string) : Py.lower (Py.lower s) = Py.lower s.
Proof.
  induction s as [|c s IH]; simpl; [done|]. by rewrite lower_char_idemp, IH.
Qed.

Lemma all_chars_lower_fixed (s : string) :
  all_chars (λ c, bool_decide (Py.lower_char c = c)) s = true ↔ Py.lower s = s.
Proof.
  induction s as [|c s IH]; simpl; [done|].
  rewrite andb_true_iff, bool_decide_eq_true, IH. split.
  - by intros [-> ->].
  - by intros [= -> ->].
Qed.

Lemma split_lower_canonical (s name : string) :
  name ∈ Py.split (Py.lower s) → canonical_name name.
Proof.
  intros Hin. split; [|split].
  - intros ->. by apply split_go_not_empty in Hin.
  - apply (split_go_all_chars _ "" (Py.lower s)); [done| |done].
    clear Hin. induction (Py.lower s) as [|c t IH]; simpl; [done|].
    rewrite IH. by destruct (Py.isspace c).
  - apply all_chars_lower_fixed.
    apply (split_go_all_chars _ "" (Py.lower s)); [done| |done].
    clear Hin. induction s as [|c s IH]; simpl; [done|].
    rewrite IH, andb_true_r. apply orb_true_iff. right.
    apply bool_decide_eq_true, lower_char_idemp.
Qed.

Lemma elem_of_sorted (l : list string) (name : string) :
  name ∈ Py.sorted l ↔ name ∈ l.
Proof. unfold Py.sorted. by rewrite merge_sort_Permutation. Qed.

Lemma sorted_Permutation (l1 l2 : list string) :
  l1 ≡ₚ l2 → Py.sorted l1 = Py.sorted l2.
Proof.
  intros Hperm. unfold Py.sorted.
  apply (Sorted_unique String.le); [apply (Sorted_merge_sort _) ..|].
  by rewrite !merge_sort_Permutation.
Qed.

Lemma constructed_entries (style_rules : list (string * string)) (self : Style) :
  __init__ style_rules = Return self →
  Forall2 (λ rule entry,
             entry.1 = Py.sorted (Py.split (Py.lower rule.1)) ∧
             _parse_style_str rule.2 = Return (entry.2, []))
          style_rules (class_names_and_attrs self).
Proof.
  unfold __init__. intros Hinit.
  destruct (for_each init_rule style_rules []) as [entries|e] eqn:Hloop;
    [|done].
  injection Hinit as <-. simpl.
  by apply for_each_init_rule in Hloop as (entries' & -> & Hall).
Qed.

Lemma constructed_canonical (style_rules : list (string * string)) (self : Style) :
  __init__ style_rules = Return self →
  Forall (λ entry, Sorted String.le entry.1 ∧ Forall canonical_name entry.1)
         (class_names_and_attrs self).
Proof.
  intros Hall%constructed_entries.
  induction Hall as [|rule entry rules entries [Hkey _] _ IH];
    constructor; [|done].
  rewrite Hkey. split; [apply (Sorted_merge_sort _)|].
  apply Forall_forall. intros name Hin. rewrite elem_of_sorted in Hin.
  by eapply split_lower_canonical.
Qed.

(** X6: every tuple that construction stores is sorted, and its class
    names are not empty, have no whitespace and are in lower case. *)
Theorem constructed_tuples_are_canonical (style_rules : list (string * string))
    (self : Style) :
  __init__ style_rules = Return self →
  Forall (λ entry, Sorted String.le entry.1 ∧ Forall canonical_name entry.1)
         (class_names_and_attrs self).
Proof. apply constructed_canonical. Qed.

Lemma init_rule_same_names (acc : list (list string * Attrs))
    (names1 names2 style_str : string) :
  Py.split (Py.lower names1) ≡ₚ Py.split (Py.lower names2) →
  init_rule acc (names1, style_str) = init_rule acc (names2, style_str).
Proof.
  intros Hperm. unfold init_rule. by rewrite (sorted_Permutation _ _ Hperm).
Qed.

Lemma for_each_init_rule_same_names (rules1 rules2 : list (string * string))
    (acc : list (list string * Attrs)) :
  Forall2 (λ rule1 rule2,
             Py.split (Py.lower rule1.1) ≡ₚ Py.split (Py.lower rule2.1) ∧
             rule1.2 = rule2.2) rules1 rules2 →
  for_each init_rule rules1 acc = for_each init_rule rules2 acc.
Proof.
  intros Hall. revert acc.
  induction Hall as [|[n1 s1] [n2 s2] rules1 rules2 [Hperm Hs] _ IH];
    intros acc; [done|].
  simpl in Hperm, Hs. subst s2. cbn [for_each].
  rewrite (init_rule_same_names acc n1 n2 s1 Hperm).
  destruct (init_rule acc (n2, s1)); [apply IH | done].
Qed.

(** X7: the order of the class names in a rule, and the whitespace
    between them, do not matter: rule lists whose class-name strings
    split into the same names, in any order, give the same stylesheet or
    the same exception. *)
Theorem class_name_order_in_rules_is_irrelevant
    (rules1 rules2 : list (string * string)) :
  Forall2 (λ rule1 rule2,
             Py.split (Py.lower rule1.1) ≡ₚ Py.split (Py.lower rule2.1) ∧
             rule1.2 = rule2.2) rules1 rules2 →
  __init__ rules1 = __init__ rules2.
Proof.
  intros Hall. unfold __init__.
  by rewrite (for_each_init_rule_same_names rules1 rules2 [] Hall).
Qed.

(** X8: class names are case-insensitive on both sides: a rule's
    class-name string can be replaced by its lower-case form, and so can
    the names of a [class:] part of a style string. *)
Theorem class_names_are_case_insensitive :
  (∀ style_rules : list (string * string),
     __init__ ((λ rule, (Py.lower rule.1, rule.2)) <$> style_rules) =
     __init__ style_rules) ∧
  (∀ (st : Attrs * list string) (names : string),
     parse_part st ("class:" +:+ Py.lower names) =
     parse_part st ("class:" +:+ names)).
Proof.
  split.
  - intros style_rules. unfold __init__.
    rewrite (for_each_init_rule_same_names _ style_rules []); [done|].
    apply Forall2_fmap_l, Forall_Forall2_diag, Forall_forall.
    intros [names style_str] _. simpl. by rewrite lower_idemp.
  - intros [attrs cn] names.
    rewrite !parse_part_class by apply startswith_app.
    change (Py.slice_from 6 ("class:" +:+ Py.lower names)) with (Py.lower names).
    change (Py.slice_from 6 ("class:" +:+ names)) with names.
    by rewrite lower_idemp.
Qed.

(** ** More on matching *)

Lemma strictly_sorted_subseteq_sublist {A : Type} (R : relation A)
    `{!StrictOrder R} (k l : list A) :
  StronglySorted R k → StronglySorted R l → k ⊆ l → k `sublist_of` l.
Proof.
  revert k. induction l as [|y l IH]; intros k Hk Hl Hsub.
  - destruct k as [|x k]; [apply sublist_nil_l|].
    specialize (Hsub x (list_elem_of_here x k)). by apply elem_of_nil in Hsub.
  - destruct k as [|x k]; [apply sublist_nil_l|].
    inversion_clear Hk as [|? ? Hk' Hxk]. inversion_clear Hl as [|? ? Hl' Hyl].
    rewrite Forall_forall in Hxk, Hyl.
    pose proof (Hsub x (list_elem_of_here x k)) as Hx.
    apply elem_of_cons in Hx as [-> | Hx].
    + apply sublist_skip, IH; [done..|]. intros z Hz.
      pose proof (Hsub z (list_elem_of_further _ _ _ Hz)) as Hz'.
      apply elem_of_cons in Hz' as [-> | Hz']; [|done].
      by apply Hxk, irreflexivity in Hz; [|apply _].
    + apply sublist_cons, IH; [by constructor; [|apply Forall_forall] | done |].
      intros z Hz. pose proof (Hsub z Hz) as Hz'.
      apply elem_of_cons in Hz' as [-> | Hz']; [|done].
      apply Hyl in Hx. apply elem_of_cons in Hz as [-> | Hz].
      * by apply irreflexivity in Hx; [|apply _].
      * apply Hxk in Hz. assert (R y y) as Hyy by (by etrans).
        by apply irreflexivity in Hyy; [|apply _].
Qed.

(** X9: a rule for one class name matches exactly the queries that list
    that name, wherever it stands in the query. *)
Theorem single_class_rule_matches_when_listed (class_names : list string)
    (name : string) :
  name ≠ "" → [name] ∈ build_combos class_names ↔ name ∈ class_names.
Proof.
  intros Hne. rewrite elem_of_build_combos, singleton_sublist_l. split.
  - by intros [[= ->] | [_ ?]].
  - intros Hin. by right.
Qed.

(** X10: when the query lists its class names in strictly ascending
    order, a strictly ascending tuple of non-empty names matches exactly
    when all its names are among the query's. *)
Theorem ascending_query_matches_by_subset (class_names k : list string) :
  StronglySorted (strict String.le) k →
  StronglySorted (strict String.le) class_names →
  k ≠ [] → "" ∉ k →
  k ∈ build_combos class_names ↔ k ⊆ class_names.
Proof.
  intros Hk Hcn Hne Hempty. rewrite elem_of_build_combos. split.
  - intros [-> | [_ Hsub]]; [|by apply sublist_subseteq].
    destruct Hempty. by left.
  - intros Hsub. right. split; [done|].
    by apply (strictly_sorted_subseteq_sublist (strict String.le)).
Qed.

(** X11: a rule that names a class twice is stored with the name twice
    and matches no query that lists each class once. *)
Theorem duplicated_class_name_matches_no_plain_query
    (class_names k : list string) :
  ¬ NoDup k → NoDup class_names → k ∉ build_combos class_names.
Proof.
  intros Hdup Hnodup. rewrite elem_of_build_combos.
  intros [-> | [_ Hsub]].
  - apply Hdup, NoDup_singleton.
  - by apply Hdup, (sublist_NoDup k class_names).
Qed.

Lemma filter_none {A : Type} (P : A → Prop) `{!∀ x, Decision (P x)} (l : list A) :
  Forall (λ x, ¬ P x) l → filter P l = [].
Proof.
  induction 1 as [|x l Hx _ IH]; [done|].
  by rewrite filter_cons, decide_False.
Qed.

(** X12: the rules of a constructed stylesheet play no part when the
    style string has no class names: the result is the default with the
    inline attributes laid over it. *)
Theorem query_without_class_names_ignores_rules
    (style_rules : list (string * string)) (self : Style)
    (style_str : string) (default inline_attrs : Attrs) :
  __init__ style_rules = Return self →
  _parse_style_str style_str = Return (inline_attrs, []) →
  get_attrs_for_style_str self style_str default =
  Return (_merge_attrs [default; inline_attrs]).
Proof.
  intros Hcanon%constructed_canonical Hp.
  rewrite (get_attrs_for_style_str_eq _ _ _ _ _ Hp).
  rewrite filter_none; [done|].
  eapply Forall_impl; [exact Hcanon|].
  intros [k attr] [_ Hnames]. simpl in *.
  rewrite elem_of_build_combos. intros [-> | [Hne Hsub]].
  - apply Forall_singleton in Hnames as [Hname _]. done.
  - by apply sublist_nil_r in Hsub.
Qed.

(** ** More on construction *)

Lemma init_rule_acc (acc : list (list string * Attrs)) (rule : string * string) :
  init_rule acc rule =
  match init_rule [] rule with
  | Return entries => Return (acc ++ entries)
  | Raise e => Raise e
  end.
Proof.
  destruct rule as [names style_str]. unfold init_rule.
  by destruct (_parse_style_str style_str) as [[attrs [|c cs]]|e].
Qed.

Lemma for_each_init_rule_acc (style_rules : list (string * string))
    (acc : list (list string * Attrs)) :
  for_each init_rule style_rules acc =
  match for_each init_rule style_rules [] with
  | Return entries => Return (acc ++ entries)
  | Raise e => Raise e
  end.
Proof.
  revert acc. induction style_rules as [|rule rules IH]; intros acc.
  - simpl. by rewrite app_nil_r.
  - cbn [for_each]. rewrite (init_rule_acc acc).
    destruct (init_rule [] rule) as [entries|e]; [|done].
    rewrite (IH (acc ++ entries)), (IH entries).
    destruct (for_each init_rule rules []); [|done].
    by rewrite app_assoc.
Qed.

(** X13: the stylesheet of two rule lists, one after the other, holds
    the entries of the first followed by those of the second; it raises
    what the first raises, and otherwise what the second raises. *)
Theorem construction_of_concatenated_rules
    (rules1 rules2 : list (string * string)) :
  __init__ (rules1 ++ rules2) =
  self1 ← __init__ rules1;
  self2 ← __init__ rules2;
  Return (mkStyle (class_names_and_attrs self1 ++ class_names_and_attrs self2)).
Proof.
  unfold __init__. rewrite for_each_app.
  destruct (for_each init_rule rules1 []) as [entries1|e]; [|done].
  rewrite for_each_init_rule_acc.
  by destruct (for_each init_rule rules2 []).
Qed.

(** ** More on the style-string interpreter *)

Lemma _colorformat_value (text v : string) :
  _colorformat text = Return v → color_value v.
Proof.
  unfold color_value.
  destruct (decide (Py.slice_to 1 text = "#")) as [Hhash | Hhash].
  - apply slice_to_1_hash in Hhash as [col ->]. rewrite _colorformat_hash.
    case_decide; [intros [= <-]; by left|].
    case_decide; [intros [= <-]; by right; left|].
    case_decide; [|done].
    destruct col as [|c0 [|c1 [|c2 col]]]; [done..|].
    intros [= <-]. by right; left.
  - rewrite _colorformat_no_hash.
    + case_decide as Hin; [|done]. intros [= <-].
      rewrite !elem_of_cons, elem_of_nil in Hin. tauto.
    + intros col ->. by apply Hhash.
Qed.

(** X14: whatever [_colorformat] returns is a palette name, a string of
    six characters, the empty string or [default]. *)
Theorem colorformat_returns_a_color_value (text v : string) :
  _colorformat text = Return v → color_value v.
Proof. apply _colorformat_value. Qed.

(** X15: the only exception of the style-string interpreter is the
    [ValueError] of a colour: it carries the text of a part, or of what
    follows [bg:] in a part, and that text has none of the colour
    forms. *)
Theorem parse_raises_only_for_a_bad_color (style_str : string) (e : exception) :
  _parse_style_str style_str = Raise e →
  ∃ part text, part ∈ Py.split style_str ∧ e = ValueError text ∧
               ¬ color_form text ∧ color_text_of part text.
Proof. apply for_each_parse_part_raise. Qed.

Lemma for_each_parse_part_collects (parts : list string) (attrs attrs' : Attrs)
    (cn cn' : list string) :
  for_each parse_part parts (attrs, cn) = Return (attrs', cn') →
  cn' = cn ++ class_names_of parts.
Proof.
  unfold class_names_of.
  revert attrs cn. induction parts as [|part parts IH]; intros attrs cn.
  - intros [= <- <-]. by rewrite app_nil_r.
  - cbn [for_each].
    destruct (parse_part (attrs, cn) part) as [[attrs1 cn1]|e] eqn:Hpart;
      [|done].
    intros ->%IH. rewrite bind_cons.
    destruct (Py.startswith "class:" part) eqn:Hclass.
    + rewrite parse_part_class in Hpart by done. injection Hpart as <- <-.
      by rewrite app_assoc.
    + by apply parse_part_no_class in Hpart as ->.
Qed.

(** X16: the class names that the interpreter returns are those of the
    [class:] parts of the string, split at the commas and in lower case,
    in the order in which the string lists them; other parts add
    none. *)
Theorem parse_collects_class_names_in_order (style_str : string)
    (attrs : Attrs) (class_names : list string) :
  _parse_style_str style_str = Return (attrs, class_names) →
  class_names = class_names_of (Py.split style_str).
Proof. by intros ->%for_each_parse_part_collects. Qed.

Lemma lower_app (s t : string) : Py.lower (s +:+ t) = Py.lower s +:+ Py.lower t.
Proof.
  induction s as [|c s IH]; [done|]. rewrite app_String. simpl.
  by rewrite IH.
Qed.

Lemma split_on_go_app (sep : ascii) (cur s t : string) :
  Py.split_on_go sep cur (s +:+ String sep t) =
  Py.split_on_go sep cur s ++ Py.split_on_go sep "" t.
Proof.
  revert cur. induction s as [|c s IH]; intros cur.
  - change ("" +:+ String sep t) with (String sep t). simpl.
    by rewrite decide_True.
  - rewrite app_String. simpl. case_decide; by rewrite IH.
Qed.

(** X17: a comma in a [class:] part does what two [class:] parts do:
    [class:a,b] leaves the interpreter in the state that [class:a]
    followed by [class:b] leaves it in. *)
Theorem comma_separates_like_two_class_parts (st : Attrs * list string)
    (names1 names2 : string) :
  for_each parse_part ["class:" +:+ names1 +:+ String "," names2] st =
  for_each parse_part ["class:" +:+ names1; "class:" +:+ names2] st.
Proof.
  destruct st as [attrs cn]. cbn [for_each].
  rewrite !parse_part_class by apply startswith_app.
  change (Py.slice_from 6 ("class:" +:+ names1 +:+ String "," names2))
    with (names1 +:+ String "," names2).
  change (Py.slice_from 6 ("class:" +:+ names1)) with names1.
  change (Py.slice_from 6 ("class:" +:+ names2)) with names2.
  rewrite lower_app. change (Py.lower (String "," names2))
    with (String "," (Py.lower names2)).
  unfold Py.split_on. by rewrite split_on_go_app, app_assoc.
Qed.

(** ** Colours through the cascade *)

Lemma valid_colors_over (below top : Attrs) :
  valid_colors below → valid_colors top → valid_colors (over below top).
Proof.
  intros [Hc Hbg] [Hc' Hbg']. unfold valid_colors, over; simpl.
  split; intros v.
  - destruct (color top); simpl; [intros [= <-]; by apply Hc' | apply Hc].
  - destruct (bgcolor top); simpl; [intros [= <-]; by apply Hbg' | apply Hbg].
Qed.

Lemma valid_colors_merge (list_of_attrs : list Attrs) :
  Forall valid_colors list_of_attrs → valid_colors (_merge_attrs list_of_attrs).
Proof.
  induction list_of_attrs as [|layer l IH] using rev_ind; intros Hall.
  - change (_merge_attrs []) with DEFAULT_ATTRS.
    split; simpl; intros v [= <-]; unfold color_value; tauto.
  - apply Forall_app in Hall as [Hl Hlayer].
    rewrite Forall_singleton in Hlayer. rewrite _merge_attrs_snoc. apply valid_colors_over; [by apply IH | done].
Qed.

Lemma valid_colors_parse_part (attrs attrs' : Attrs) (cn cn' : list string)
    (part : string) :
  parse_part (attrs, cn) part = Return (attrs', cn') →
  valid_colors attrs → valid_colors attrs'.
Proof.
  intros H [Hc Hbg]. split_parse_part H; try (by split).
  - split; [done|]. simpl. intros v [= <-]. by eapply _colorformat_value.
  - split; [|done]. simpl. intros v [= <-]. by eapply _colorformat_value.
Qed.

Lemma valid_colors_parse (style_str : string) (attrs : Attrs)
    (cn : list string) :
  _parse_style_str style_str = Return (attrs, cn) → valid_colors attrs.
Proof.
  unfold _parse_style_str.
  assert (valid_colors (start_attrs style_str)) as Hstart.
  { unfold start_attrs. destruct (Py.contains _ _).
    - split; simpl; intros v [= <-]; unfold color_value; tauto.
    - by split. }
  revert Hstart. generalize (start_attrs style_str) (@nil string).
  induction (Py.split style_str) as [|part parts IH]; intros a0 cn0 Hvalid.
  - by intros [= <- <-].
  - cbn [for_each].
    destruct (parse_part (a0, cn0) part) as [[a1 cn1]|e] eqn:Hpart; [|done].
    apply IH. by eapply valid_colors_parse_part.
Qed.

Lemma constructed_valid_colors (style_rules : list (string * string))
    (self : Style) :
  __init__ style_rules = Return self →
  Forall (λ entry, valid_colors entry.2) (class_names_and_attrs self).
Proof.
  intros Hall%constructed_entries.
  induction Hall as [|rule entry rules entries [_ Hparse] _ IH];
    constructor; [|done].
  by eapply valid_colors_parse.
Qed.

(** X18: colours stay well-formed through the whole cascade: with a
    constructed stylesheet and a default whose colours are palette
    names, six characters, empty or [default], so are the colours of
    every result. *)
Theorem resolved_colors_are_color_values
    (style_rules : list (string * string)) (self : Style)
    (style_str : string) (default attrs : Attrs) :
  __init__ style_rules = Return self →
  valid_colors default →
  get_attrs_for_style_str self style_str default = Return attrs →
  valid_colors attrs.
Proof.
  intros Hentries%constructed_valid_colors Hdefault.
  unfold get_attrs_for_style_str.
  destruct (_parse_style_str style_str) as [[inline_attrs cn]|e] eqn:Hp;
    [|done].
  simpl. intros [= <-]. rewrite collect_attrs_filter.
  apply valid_colors_merge. rewrite !Forall_app. split; [split|].
  - by apply Forall_singleton.
  - apply Forall_fmap, Forall_forall. intros entry [_ Hin]%list_elem_of_filter.
    rewrite Forall_forall in Hentries. by apply Hentries.
  - apply Forall_singleton. by eapply valid_colors_parse.
Qed.

(** ** The exceptions of construction *)

Lemma init_rule_raise (acc : list (list string * Attrs))
    (rule : string * string) (e : exception) :
  init_rule acc rule = Raise e →
  (e = AssertionError ∧ has_class_part (Py.split rule.2)) ∨
  (∃ text, e = ValueError text ∧ ¬ color_form text).
Proof.
  destruct rule as [names style_str]. unfold init_rule. simpl.
  destruct (_parse_style_str style_str) as [[attrs cn]|e'] eqn:Hp; simpl.
  - destruct cn as [|c cs]; [done|]. intros [= <-]. left. split; [done|].
    by apply (_parse_style_str_class_names _ _ _ Hp).
  - intros [= ->]. right.
    apply for_each_parse_part_raise in Hp as (part & text & _ & -> & Hno & _).
    by exists text.
Qed.

(** X19: construction raises nothing but [AssertionError], and then
    some rule's style string has a [class:] part, or the [ValueError] of
    a text that has none of the colour forms. *)
Theorem construction_raises_only_two_errors
    (style_rules : list (string * string)) (e : exception) :
  __init__ style_rules = Raise e →
  (e = AssertionError ∧
   Exists (λ rule, has_class_part (Py.split rule.2)) style_rules) ∨
  (∃ text, e = ValueError text ∧ ¬ color_form text).
Proof.
  unfold __init__.
  destruct (for_each init_rule style_rules []) as [entries|e'] eqn:Hloop;
    [done|].
  simpl. intros [= ->]. revert Hloop. generalize (@nil (list string * Attrs)).
  induction style_rules as [|rule rules IH]; intros acc; [done|].
  cbn [for_each]. destruct (init_rule acc rule) as [acc'|e'] eqn:Hrule.
  - intros [[-> Hex] | Hval]%IH; [left | by right].
    split; [done | by apply Exists_cons_tl].
  - intros [= ->]. apply init_rule_raise in Hrule as [[-> Hclass] | Hval];
      [left | by right].
    split; [done | by apply Exists_cons_hd].
Qed.

End style.

(** ** Closed instances *)

(** Decides a closed proposition by evaluation. *)
Ltac by_evaluation := apply (bool_decide_unpack _); vm_compute; exact I.

Lemma C5_rule_order_is_preserved_witness :
  __init__ sample_names [("b a", "bold"); ("a", "nobold"); ("b a", "italic")] =
    Return (mkStyle [(["a"; "b"], replace_bold true _EMPTY_ATTRS);
                     (["a"], replace_bold false _EMPTY_ATTRS);
                     (["a"; "b"], replace_italic true _EMPTY_ATTRS)]) ∧
  Forall2 (λ rule entry,
             entry.1 = Py.sorted (Py.split (Py.lower rule.1)) ∧
             _parse_style_str sample_names rule.2 = Return (entry.2, []))
          [("b a", "bold"); ("a", "nobold"); ("b a", "italic")]
          [(["a"; "b"], replace_bold true _EMPTY_ATTRS);
           (["a"], replace_bold false _EMPTY_ATTRS);
           (["a"; "b"], replace_italic true _EMPTY_ATTRS)].
Proof.
  split; [by vm_compute|].
  refine (proj1 (proj1 (C5_rule_order_is_preserved sample_names)
                   [("b a", "bold"); ("a", "nobold"); ("b a", "italic")]
                   (mkStyle _) _)).
  by vm_compute.
Defined.

Lemma C6_noinherit_anywhere_in_the_string_witness :
  "noinherit" ∈ Py.split "bold noinherit" ∧
  Py.contains "noinherit" "bold noinherit" = true ∧
  start_attrs "bold noinherit" = DEFAULT_ATTRS ∧
  _parse_style_str sample_names "bold noinherit" =
    Return (replace_bold true DEFAULT_ATTRS, []) ∧
  all_set (replace_bold true DEFAULT_ATTRS).
Proof.
  pose proof (C6_noinherit_anywhere_in_the_string sample_names "bold noinherit")
    as (Htoken & Hstart & _ & Hparse).
  assert ("noinherit" ∈ Py.split "bold noinherit") as Hin by by_evaluation.
  split; [done|]. split; [by apply Htoken|].
  split; [apply Hstart; by apply Htoken|].
  split; [by vm_compute|].
  apply (Hparse _ []); [by vm_compute | by apply Htoken].
Defined.

(** [noinherit] inside a part that is not the word itself: no part is
    [noinherit], and the parse starts from [DEFAULT_ATTRS] all the same. *)
Lemma C6_noinherit_inside_a_part :
  ("noinherit" ∉ Py.split "[noinherit]") ∧
  start_attrs "[noinherit]" = DEFAULT_ATTRS ∧
  start_attrs "[noinherit]" ≠ _EMPTY_ATTRS ∧
  _parse_style_str sample_names "[noinherit]" = Return (DEFAULT_ATTRS, []) ∧
  ("noinherit" ∉ Py.split "border:noinherit") ∧
  _parse_style_str sample_names "border:noinherit" = Return (DEFAULT_ATTRS, []).
Proof.
  split; [by_evaluation|]. split; [by vm_compute|]. split; [by vm_compute|].
  split; [by vm_compute|]. split; [by_evaluation | by vm_compute].
Qed.

Lemma C7_empty_style_string_keeps_default_witness :
  all_set (mkAttrs (Some "ff8800") (Some "ansiblue") (Some true) (Some false)
                   (Some true) (Some false) (Some true)) ∧
  resolve sample_names [] ""
          (mkAttrs (Some "ff8800") (Some "ansiblue") (Some true) (Some false)
                   (Some true) (Some false) (Some true)) =
  Return (mkAttrs (Some "ff8800") (Some "ansiblue") (Some true) (Some false)
                  (Some true) (Some false) (Some true)).
Proof.
  assert (all_set (mkAttrs (Some "ff8800") (Some "ansiblue") (Some true)
                           (Some false) (Some true) (Some false) (Some true)))
    as Hset by (unfold all_set; simpl; repeat split; eauto).
  split; [done|].
  exact (proj2 (proj2 (C7_empty_style_string_keeps_default sample_names _ Hset))).
Defined.



Lemma C9_colorformat_accepts_exactly_the_forms_witness :
  color_form sample_names "#f80" ∧
  (∃ v, _colorformat sample_names "#f80" = Return v) ∧
  ¬ color_form sample_names "#12" ∧
  ("12" ∉ sample_names) ∧
  _colorformat sample_names "#12" = Raise (ValueError "#12") ∧
  ("f80" ∉ sample_names) ∧
  _colorformat sample_names "#f80" = Return "ff8800".
Proof.
  pose proof (C9_colorformat_accepts_exactly_the_forms sample_names)
    as (Hacc & _ & H12 & Hf80 & _).
  assert (color_form sample_names "#f80") as Hform.
  { left. exists "f80". split; [reflexivity|]. right. right. reflexivity. }
  assert ("12" ∉ sample_names) as Hn12 by by_evaluation.
  assert ("f80" ∉ sample_names) as Hnf80 by by_evaluation.
  split; [done|]. split; [by apply Hacc|]. split.
  { intros [(col & [= <-] & [Hin | [Hlen | Hlen]]) | [? | ?]]; done. }
  split; [done|]. split; [by apply H12|]. split; [done | by apply Hf80].
Defined.

Lemma C10_six_characters_are_returned_unchecked_witness :
  String.length "zzzzzz" = 6 ∧
  _colorformat sample_names "#zzzzzz" = Return "zzzzzz".
Proof.
  split; [reflexivity|].
  apply (C10_six_characters_are_returned_unchecked sample_names "zzzzzz").
  reflexivity.
Defined.

(** ** Closed instances of the further properties *)

Lemma merge_fully_set_layer_hides_earlier_witness :
  all_set DEFAULT_ATTRS ∧
  _merge_attrs ([replace_bold true _EMPTY_ATTRS] ++
                DEFAULT_ATTRS :: [replace_italic true _EMPTY_ATTRS]) =
  _merge_attrs (DEFAULT_ATTRS :: [replace_italic true _EMPTY_ATTRS]).
Proof.
  assert (all_set DEFAULT_ATTRS) as Hset
    by (unfold all_set; simpl; repeat split; eauto).
  split; [done|]. by apply merge_fully_set_layer_hides_earlier.
Defined.

Lemma inline_style_wins_witness :
  _parse_style_str sample_names "class:x #00ff00" =
    Return (replace_color "00ff00" _EMPTY_ATTRS, ["x"]) ∧
  get_attrs_for_style_str sample_names
    (mkStyle [(["x"], replace_color "ff0000" _EMPTY_ATTRS)])
    "class:x #00ff00" DEFAULT_ATTRS =
    Return (replace_color "00ff00" DEFAULT_ATTRS) ∧
  color (replace_color "00ff00" DEFAULT_ATTRS) = Some "00ff00".
Proof.
  assert (_parse_style_str sample_names "class:x #00ff00" =
            Return (replace_color "00ff00" _EMPTY_ATTRS, ["x"])) as Hp
    by (by vm_compute).
  assert (get_attrs_for_style_str sample_names
            (mkStyle [(["x"], replace_color "ff0000" _EMPTY_ATTRS)])
            "class:x #00ff00" DEFAULT_ATTRS =
          Return (replace_color "00ff00" DEFAULT_ATTRS)) as Hq
    by (by vm_compute).
  split; [done|]. split; [done|].
  by apply (proj1 (inline_style_wins sample_names _ _ _ _ _ _ Hp Hq)).
Defined.

Lemma noinherit_inline_style_decides_alone_witness :
  Py.contains "noinherit" "noinherit italic" = true ∧
  _parse_style_str sample_names "noinherit italic" =
    Return (replace_italic true DEFAULT_ATTRS, []) ∧
  get_attrs_for_style_str sample_names
    (mkStyle [(["x"], replace_bold true _EMPTY_ATTRS)])
    "noinherit italic"
    (mkAttrs (Some "ff0000") (Some "") (Some true) (Some true) (Some false)
             (Some true) (Some true)) =
    Return (replace_italic true DEFAULT_ATTRS).
Proof.
  split; [by vm_compute|]. split; [by vm_compute|].
  apply (noinherit_inline_style_decides_alone sample_names _ _ _ _ []);
    by vm_compute.
Defined.

Lemma constructed_tuples_are_canonical_witness :
  __init__ sample_names [("B  a", "bold"); ("Title", "#f80")] =
    Return (mkStyle [(["a"; "b"], replace_bold true _EMPTY_ATTRS);
                     (["title"], replace_color "ff8800" _EMPTY_ATTRS)]) ∧
  Forall (λ entry, Sorted String.le entry.1 ∧ Forall canonical_name entry.1)
         [(["a"; "b"], replace_bold true _EMPTY_ATTRS);
          (["title"], replace_color "ff8800" _EMPTY_ATTRS)].
Proof.
  split; [by vm_compute|].
  apply (constructed_tuples_are_canonical sample_names
           [("B  a", "bold"); ("Title", "#f80")] (mkStyle _)).
  by vm_compute.
Defined.

Lemma class_name_order_in_rules_is_irrelevant_witness :
  Forall2 (λ rule1 rule2,
             Py.split (Py.lower rule1.1) ≡ₚ Py.split (Py.lower rule2.1) ∧
             rule1.2 = rule2.2)
          [("b a", "bold")] [(" A  b ", "bold")] ∧
  __init__ sample_names [("b a", "bold")] =
  __init__ sample_names [(" A  b ", "bold")].
Proof.
  assert (Forall2 (λ rule1 rule2 : string * string,
             Py.split (Py.lower rule1.1) ≡ₚ Py.split (Py.lower rule2.1) ∧
             rule1.2 = rule2.2)
          [("b a", "bold")] [(" A  b ", "bold")]) as Hall.
  { constructor; [|constructor]. split; [|reflexivity].
    vm_compute. apply Permutation_swap. }
  split; [done|].
  by apply class_name_order_in_rules_is_irrelevant.
Defined.

Lemma single_class_rule_matches_when_listed_witness :
  "b" ≠ "" ∧ ["b"] ∈ build_combos ["c"; "b"; "a"] ∧ "b" ∈ ["c"; "b"; "a"].
Proof.
  assert ("b" ≠ "") as Hne by done.
  assert ("b" ∈ ["c"; "b"; "a"]) as Hin by by_evaluation.
  split; [done|]. split; [|done].
  by apply (single_class_rule_matches_when_listed ["c"; "b"; "a"] "b" Hne).
Defined.

Lemma ascending_query_matches_by_subset_witness :
  StronglySorted (strict String.le) ["a"; "c"] ∧
  StronglySorted (strict String.le) ["a"; "b"; "c"] ∧
  ["a"; "c"] ⊆ ["a"; "b"; "c"] ∧
  ["a"; "c"] ∈ build_combos ["a"; "b"; "c"].
Proof.
  assert (StronglySorted (strict String.le) ["a"; "c"]) as Hk by by_evaluation.
  assert (StronglySorted (strict String.le) ["a"; "b"; "c"]) as Hcn
    by by_evaluation.
  assert (["a"; "c"] ⊆ ["a"; "b"; "c"]) as Hsub by by_evaluation.
  assert ("" ∉ ["a"; "c"]) as Hempty by by_evaluation.
  split; [done|]. split; [done|]. split; [done|].
  by apply (ascending_query_matches_by_subset ["a"; "b"; "c"] ["a"; "c"]).
Defined.

Lemma duplicated_class_name_matches_no_plain_query_witness :
  Py.sorted (Py.split (Py.lower "a a")) = ["a"; "a"] ∧
  ¬ NoDup ["a"; "a"] ∧ NoDup ["a"; "b"] ∧
  ["a"; "a"] ∉ build_combos ["a"; "b"].
Proof.
  assert (¬ NoDup ["a"; "a"]) as Hdup by by_evaluation.
  assert (NoDup ["a"; "b"]) as Hnodup by by_evaluation.
  split; [by vm_compute|]. split; [done|]. split; [done|].
  by apply duplicated_class_name_matches_no_plain_query.
Defined.

Lemma query_without_class_names_ignores_rules_witness :
  __init__ sample_names [("", "bold"); ("a", "italic")] =
    Return (mkStyle [([], replace_bold true _EMPTY_ATTRS);
                     (["a"], replace_italic true _EMPTY_ATTRS)]) ∧
  _parse_style_str sample_names "underline" =
    Return (replace_underline true _EMPTY_ATTRS, []) ∧
  get_attrs_for_style_str sample_names
    (mkStyle [([], replace_bold true _EMPTY_ATTRS);
              (["a"], replace_italic true _EMPTY_ATTRS)])
    "underline" DEFAULT_ATTRS =
    Return (_merge_attrs [DEFAULT_ATTRS; replace_underline true _EMPTY_ATTRS]).
Proof.
  split; [by vm_compute|]. split; [by vm_compute|].
  apply (query_without_class_names_ignores_rules sample_names
           [("", "bold"); ("a", "italic")]); by vm_compute.
Defined.

Lemma colorformat_returns_a_color_value_witness :
  _colorformat sample_names "#abc" = Return "aabbcc" ∧
  color_value sample_names "aabbcc".
Proof.
  assert (_colorformat sample_names "#abc" = Return "aabbcc") as Hc
    by (by vm_compute).
  split; [done|].
  by apply (colorformat_returns_a_color_value sample_names "#abc").
Defined.

Lemma parse_raises_only_for_a_bad_color_witness :
  _parse_style_str sample_names "bold bg:#12 red" = Raise (ValueError "#12") ∧
  ∃ part text, part ∈ Py.split "bold bg:#12 red" ∧
               ValueError "#12" = ValueError text ∧
               ¬ color_form sample_names text ∧ color_text_of part text.
Proof.
  assert (_parse_style_str sample_names "bold bg:#12 red" =
            Raise (ValueError "#12")) as Hp by (by vm_compute).
  split; [done|].
  by apply (parse_raises_only_for_a_bad_color sample_names).
Defined.

Lemma parse_collects_class_names_in_order_witness :
  _parse_style_str sample_names "class:B,a bold class:c" =
    Return (replace_bold true _EMPTY_ATTRS, ["b"; "a"; "c"]) ∧
  ["b"; "a"; "c"] = class_names_of (Py.split "class:B,a bold class:c").
Proof.
  assert (_parse_style_str sample_names "class:B,a bold class:c" =
            Return (replace_bold true _EMPTY_ATTRS, ["b"; "a"; "c"])) as Hp
    by (by vm_compute).
  split; [done|].
  by apply (parse_collects_class_names_in_order sample_names _ _ _ Hp).
Defined.

Lemma resolved_colors_are_color_values_witness :
  __init__ sample_names [("a", "#ansired bg:#abc")] =
    Return (mkStyle [(["a"], replace_bgcolor "aabbcc"
                               (replace_color "ansired" _EMPTY_ATTRS))]) ∧
  valid_colors sample_names DEFAULT_ATTRS ∧
  get_attrs_for_style_str sample_names
    (mkStyle [(["a"], replace_bgcolor "aabbcc"
                        (replace_color "ansired" _EMPTY_ATTRS))])
    "class:a" DEFAULT_ATTRS =
    Return (replace_bgcolor "aabbcc" (replace_color "ansired" DEFAULT_ATTRS)) ∧
  valid_colors sample_names
    (replace_bgcolor "aabbcc" (replace_color "ansired" DEFAULT_ATTRS)).
Proof.
  assert (valid_colors sample_names DEFAULT_ATTRS) as Hdefault.
  { split; simpl; intros v [= <-]; unfold color_value; tauto. }
  split; [by vm_compute|]. split; [done|]. split; [by vm_compute|].
  apply (resolved_colors_are_color_values sample_names
           [("a", "#ansired bg:#abc")]
           (mkStyle [(["a"], replace_bgcolor "aabbcc"
                               (replace_color "ansired" _EMPTY_ATTRS))])
           "class:a" DEFAULT_ATTRS);
    [by vm_compute | done | by vm_compute].
Defined.

Lemma construction_raises_only_two_errors_witness :
  __init__ sample_names [("a", "bold"); ("b", "class:c")] =
    Raise AssertionError ∧
  ((AssertionError = AssertionError ∧
    Exists (λ rule, has_class_part (Py.split rule.2))
           [("a", "bold"); ("b", "class:c")]) ∨
   (∃ text, AssertionError = ValueError text ∧
            ¬ color_form sample_names text)).
Proof.
  assert (__init__ sample_names [("a", "bold"); ("b", "class:c")] =
            Raise AssertionError) as Hinit by (by vm_compute).
  split; [done|].
  by apply (construction_raises_only_two_errors sample_names).
Defined.
